(** * Assets::Model — mesh ingestion, vertex welding, sphere adapter, transform

    A shallow embedding of [src/Assets/Model.cpp].  The four operations of
    the class ([LoadModel], [CreateSphere], [SetMaterial], [Transform]) are
    written as Rocq functions over the data the C++ code manipulates:

    - [std::vector<T>] is [list T]; [operator[]] outside the vector is
      undefined behaviour and is reported as the outcome [Undefined];
    - [std::unordered_map<Vertex, uint32_t>] is [gmap Vertex N];
    - [uint32_t] is [N], with the wrap of [static_cast<uint32_t>] written out;
    - [int] is [Z]; an [int] used as a vector subscript must lie in
      [0 .. INT_MAX], otherwise the read is out of range (a negative [int]
      converts to a [size_t] beyond any vector) or the arithmetic overflowed;
    - [float] is an abstract type [F] with the operations the file uses
      ([1 - v], [a + b]) and the literals [0], [1], [0.7f]; a concrete
      binary32 instance built on [SpecFloat] is given in [Module Binary32];
    - exceptions ([Utilities::Throw]) are the outcome [Raised].

    Console output and the wall-clock timer have no influence on the
    returned [Model] and are left out. *)

From Stdlib Require Import ZArith NArith String Ascii Lia.
From Stdlib Require Import Floats.SpecFloat.
From stdpp Require Import base tactics option list numbers countable gmap.

(** ** Outcomes of a C++ call *)

Inductive exception : Type :=
| runtime_error (what : string).

Inductive outcome (A : Type) : Type :=
| Ok (a : A)
| Raised (e : exception)
| Undefined.

Arguments Ok {A} a.
Arguments Raised {A} e.
Arguments Undefined {A}.

Definition Throw {A : Type} (e : exception) : outcome A := Raised e.

#[global] Instance outcome_ret : MRet outcome := fun A a => Ok a.
#[global] Instance outcome_bind : MBind outcome := fun A B k c =>
  match c with
  | Ok a => k a
  | Raised e => Raised e
  | Undefined => Undefined
  end.

(** ** Vector subscripts *)

Definition INT_MAX : Z := 2147483647.

(** [v[i]] with [i : size_t]. *)
Definition subscript {A : Type} (v : list A) (i : nat) : outcome A :=
  match v !! i with
  | Some a => Ok a
  | None => Undefined
  end.

(** [v[i]] with [i : int], the value of an [int] expression. *)
Definition subscript_int {A : Type} (v : list A) (i : Z) : outcome A :=
  if decide (0 ≤ i ≤ INT_MAX)%Z then subscript v (Z.to_nat i) else Undefined.

(** [static_cast<uint32_t>(n)] for [n : size_t]. *)
Definition to_uint32 (n : nat) : N := (N.of_nat n mod 2 ^ 32)%N.

(** A loop [for (const auto& x : xs) body] over a state [S]; it stops at
    the first iteration that does not complete. *)
Fixpoint for_each {S X : Type} (body : S → X → outcome S) (xs : list X) (s : S)
  : outcome S :=
  match xs with
  | [] => Ok s
  | x :: xs' => s' ← body s x; for_each body xs' s'
  end.

(** ** glm vectors *)

Module glm.
Record vec2 (T : Type) : Type := Vec2 { x2 : T; y2 : T }.
Record vec3 (T : Type) : Type := Vec3 { x3 : T; y3 : T; z3 : T }.
Record vec4 (T : Type) : Type := Vec4 { x4 : T; y4 : T; z4 : T; w4 : T }.
Arguments Vec2 {T} _ _.
Arguments Vec3 {T} _ _ _.
Arguments Vec4 {T} _ _ _ _.
Arguments x2 {T} _.
Arguments y2 {T} _.
Arguments x3 {T} _.
Arguments y3 {T} _.
Arguments z3 {T} _.
Arguments x4 {T} _.
Arguments y4 {T} _.
Arguments z4 {T} _.
Arguments w4 {T} _.

(** [glm::vec4(v, w)] *)
Definition vec4_of {T : Type} (v : vec3 T) (w : T) : vec4 T :=
  Vec4 (x3 v) (y3 v) (z3 v) w.

(** [glm::vec3(v)] for a [vec4]: the conversion used when a [vec4] is
    assigned to a [vec3]; it drops [w]. *)
Definition vec3_of {T : Type} (v : vec4 T) : vec3 T :=
  Vec3 (x4 v) (y4 v) (z4 v).
End glm.

(** ** The parser's output types (tiny_obj_loader.h), fields used here *)

Module tinyobj.
Record index_t : Type := Index
  { vertex_index : Z; normal_index : Z; texcoord_index : Z }.

Record mesh_t : Type := Mesh
  { indices : list index_t; material_ids : list Z }.

Record shape_t : Type := Shape { mesh : mesh_t }.

Record attrib_t (real_t : Type) : Type := Attrib
  { vertices : list real_t; normals : list real_t; texcoords : list real_t }.
Arguments Attrib {real_t} _ _ _.
Arguments vertices {real_t} _.
Arguments normals {real_t} _.
Arguments texcoords {real_t} _.

(** [real_t diffuse[3]] *)
Record material_t (real_t : Type) : Type := Mtl
  { diffuse : real_t * real_t * real_t }.
Arguments Mtl {real_t} _.
Arguments diffuse {real_t} _.

(** What [tinyobj::LoadObj] hands back through its result and its
    out-parameters. *)
Record parsed (real_t : Type) : Type := Parsed
  { ret : bool;
    objAttrib : attrib_t real_t;
    objShapes : list shape_t;
    objMaterials : list (material_t real_t);
    warn : string;
    err : string }.
Arguments Parsed {real_t} _ _ _ _ _ _.
Arguments ret {real_t} _.
Arguments objAttrib {real_t} _.
Arguments objShapes {real_t} _.
Arguments objMaterials {real_t} _.
Arguments warn {real_t} _.
Arguments err {real_t} _.
End tinyobj.

(** ** Vertex, Material, Procedural, Icosphere, Model

    Vertex.hpp, Material.hpp, Sphere.hpp, Icosphere.hpp and Model.hpp are
    not among the sources; the records below hold the fields and accessors
    that Model.cpp reads and writes. *)

Record Vertex (F : Type) : Type := mkVertex
  { Position : glm.vec3 F;
    Normal : glm.vec3 F;
    TexCoord : glm.vec2 F;
    MaterialIndex : Z }.
Arguments mkVertex {F} _ _ _ _.
Arguments Position {F} _.
Arguments Normal {F} _.
Arguments TexCoord {F} _.
Arguments MaterialIndex {F} _.

(** [Material]: the diffuse colour, and whatever other fields Material.hpp
    declares, kept together as [Other] (a [Material m{}] value-initialises
    them and Model.cpp never writes them). *)
Record Material (F R : Type) : Type := mkMaterial
  { Diffuse : glm.vec4 F; Other : R }.
Arguments mkMaterial {F R} _ _.
Arguments Diffuse {F R} _.
Arguments Other {F R} _.

(** The analytic-shape descriptor; [Sphere] is the only one built here. *)
Inductive Procedural (F : Type) : Type :=
| Sphere (Center : glm.vec3 F) (Radius : F).
Arguments Sphere {F} _ _.

(** The generator's result, as read through its accessors. *)
Record Icosphere (F : Type) : Type := mkIcosphere
  { VertexCount : nat;
    Vertices : list F;
    Normals : list F;
    TexCoords : list F;
    Indices : list N }.
Arguments mkIcosphere {F} _ _ _ _ _.
Arguments VertexCount {F} _.
Arguments Vertices {F} _.
Arguments Normals {F} _.
Arguments TexCoords {F} _.
Arguments Indices {F} _.

Record Model (F R : Type) : Type := mkModel
  { vertices_ : list (Vertex F);
    indices_ : list N;
    materials_ : list (Material F R);
    procedural_ : option (Procedural F) }.
Arguments mkModel {F R} _ _ _ _.
Arguments vertices_ {F R} _.
Arguments indices_ {F R} _.
Arguments materials_ {F R} _.
Arguments procedural_ {F R} _.

(** ** Vertex identity

    [Vertex] is the key of the welding map, through [Vertex::operator==]
    and the [std::hash<Vertex>] of lines 21-41.  The hash is a function of
    the four fields, so equal vertices hash alike; it decides in which
    bucket a key is searched and nothing else, and the map is a [gmap]. *)

Section VertexIdentity.
Context {F : Type} `{Countable F}.

#[global] Instance vec2_eq_dec : EqDecision (glm.vec2 F).
Proof. solve_decision. Defined.
#[global] Instance vec3_eq_dec : EqDecision (glm.vec3 F).
Proof. solve_decision. Defined.

(** Modelled from the spec: [Vertex::operator==], declared in Vertex.hpp,
    which is not among the sources.  The spec (4.1, glossary) makes two
    vertices the same when their attribute tuples (position, normal,
    texture coordinate, material index) are equal field by field, compared
    exactly, with no tolerance: the equality of the record, decided from
    the equality of the float type [F]. *)
#[global] Instance Vertex_eq_dec : EqDecision (Vertex F).
Proof. solve_decision. Defined.

Definition Vertex_to_tuple (v : Vertex F) : (F * F * F) * (F * F * F) * (F * F) * Z :=
  let p := Position v in
  let n := Normal v in
  let t := TexCoord v in
  ((glm.x3 p, glm.y3 p, glm.z3 p), (glm.x3 n, glm.y3 n, glm.z3 n),
   (glm.x2 t, glm.y2 t), MaterialIndex v).

Definition Vertex_of_tuple (t : (F * F * F) * (F * F * F) * (F * F) * Z) : Vertex F :=
  let '((px, py, pz), (nx, ny, nz), (u, v), m) := t in
  mkVertex (glm.Vec3 px py pz) (glm.Vec3 nx ny nz) (glm.Vec2 u v) m.

#[global] Instance Vertex_countable : Countable (Vertex F).
Proof.
  refine (inj_countable' Vertex_to_tuple Vertex_of_tuple _).
  by intros [[] [] [] ?].
Defined.
End VertexIdentity.

(** ** The operations of Model.cpp *)

Section Assets.
Context {F : Type} `{Countable F} {R : Type}.

(** [float] literals and arithmetic: [0] (value-initialisation and the
    literal [0]), [1] (the literals [1] and [1.0]), [0.7f], [a + b], [a - b]. *)
Variables (zero one seven_tenths : F) (fadd fsub : F → F → F).

(** The value-initialised remainder of a [Material m{}]. *)
Variable zeroR : R.

(** [glm::mat4], its product with a [vec4], and [glm::inverseTranspose]. *)
Context {mat4 : Type}.
Variables (mat4_mul_vec4 : mat4 → glm.vec4 F → glm.vec4 F)
  (inverseTranspose : mat4 → mat4).

(** The collaborators: [tinyobj::LoadObj filename mtl_basedir], the parent
    directory of a path, and the [Icosphere(radius, subdivision, smooth)]
    constructor. *)
Variables (LoadObj : string → string → tinyobj.parsed F)
  (parent_path : string → string)
  (Icosphere_new : F → Z → bool → Icosphere F).

(** [a + b] on [glm::vec3] *)
Definition vec3_add (a b : glm.vec3 F) : glm.vec3 F :=
  glm.Vec3 (fadd (glm.x3 a) (glm.x3 b)) (fadd (glm.y3 a) (glm.y3 b))
    (fadd (glm.z3 a) (glm.z3 b)).

(** *** LoadModel *)

(** Lines 75-93: one [Material] per parsed material, then the fallback. *)
Definition LoadModel_material (material : tinyobj.material_t F) : Material F R :=
  let '(d0, d1, d2) := tinyobj.diffuse material in
  mkMaterial (glm.Vec4 d0 d1 d2 one) zeroR.

Definition LoadModel_materials (objMaterials : list (tinyobj.material_t F))
  : list (Material F R) :=
  let materials :=
    foldl (fun materials material => materials ++ [LoadModel_material material])
      [] objMaterials in
  match materials with
  | [] => materials ++ [mkMaterial (glm.Vec4 seven_tenths seven_tenths seven_tenths one) zeroR]
  | _ :: _ => materials
  end.

(** The locals of the geometry loop (lines 96-99). *)
Record Geometry : Type := mkGeometry
  { vertices : list (Vertex F);
    indices : list N;
    uniqueVertices : gmap (Vertex F) N;
    faceId : nat }.

Definition Geometry_init : Geometry := mkGeometry [] [] ∅ 0.

(** Lines 107-132: the vertex of one corner.  [faceId] is the counter's
    value before its post-increment. *)
Definition LoadModel_vertex (objAttrib : tinyobj.attrib_t F) (mesh : tinyobj.mesh_t)
    (faceId : nat) (index : tinyobj.index_t) : outcome (Vertex F) :=
  px ← subscript_int (tinyobj.vertices objAttrib) (3 * tinyobj.vertex_index index + 0);
  py ← subscript_int (tinyobj.vertices objAttrib) (3 * tinyobj.vertex_index index + 1);
  pz ← subscript_int (tinyobj.vertices objAttrib) (3 * tinyobj.vertex_index index + 2);
  nx ← subscript_int (tinyobj.normals objAttrib) (3 * tinyobj.normal_index index + 0);
  ny ← subscript_int (tinyobj.normals objAttrib) (3 * tinyobj.normal_index index + 1);
  nz ← subscript_int (tinyobj.normals objAttrib) (3 * tinyobj.normal_index index + 2);
  texCoord ←
    match tinyobj.texcoords objAttrib with
    | [] => mret (glm.Vec2 zero zero)
    | _ :: _ =>
        u ← subscript_int (tinyobj.texcoords objAttrib) (2 * tinyobj.texcoord_index index + 0);
        v ← subscript_int (tinyobj.texcoords objAttrib) (2 * tinyobj.texcoord_index index + 1);
        mret (glm.Vec2 u (fsub one v))
    end;
  materialId ← subscript (tinyobj.material_ids mesh) (faceId / 3);
  mret (mkVertex (glm.Vec3 px py pz) (glm.Vec3 nx ny nz) texCoord (Z.max 0 materialId)).

(** [uniqueVertices[vertex]] read as a value: [operator[]] inserts a
    value-initialised entry for a key it does not find. *)
Definition map_subscript (m : gmap (Vertex F) N) (vertex : Vertex F)
  : N * gmap (Vertex F) N :=
  match m !! vertex with
  | Some i => (i, m)
  | None => (0%N, <[vertex := 0%N]> m)
  end.

(** Lines 134-140: weld the vertex into the pool and emit its index. *)
Definition LoadModel_weld (vertex : Vertex F) (g : Geometry) : Geometry :=
  let g1 :=
    match uniqueVertices g !! vertex with
    | None =>
        mkGeometry (vertices g ++ [vertex]) (indices g)
          (<[vertex := to_uint32 (length (vertices g))]> (uniqueVertices g))
          (faceId g)
    | Some _ => g
    end in
  let '(i, m) := map_subscript (uniqueVertices g1) vertex in
  mkGeometry (vertices g1) (indices g1 ++ [i]) m (faceId g1).

(** Lines 105-141: the body of the loop over [mesh.indices]. *)
Definition LoadModel_corner (objAttrib : tinyobj.attrib_t F) (mesh : tinyobj.mesh_t)
    (g : Geometry) (index : tinyobj.index_t) : outcome Geometry :=
  vertex ← LoadModel_vertex objAttrib mesh (faceId g) index;
  mret (LoadModel_weld vertex
          (mkGeometry (vertices g) (indices g) (uniqueVertices g) (S (faceId g)))).

(** Lines 101-142: the body of the loop over [objShapes]. *)
Definition LoadModel_shape (objAttrib : tinyobj.attrib_t F) (g : Geometry)
    (shape : tinyobj.shape_t) : outcome Geometry :=
  for_each (LoadModel_corner objAttrib (tinyobj.mesh shape))
    (tinyobj.indices (tinyobj.mesh shape)) g.

Definition LoadModel_geometry (objAttrib : tinyobj.attrib_t F)
    (objShapes : list tinyobj.shape_t) : outcome Geometry :=
  for_each (LoadModel_shape objAttrib) objShapes Geometry_init.

Definition newline : string := String (ascii_of_nat 10) EmptyString.

Definition LoadModel (filename : string) : outcome (Model F R) :=
  let materialPath := parent_path filename in
  let obj := LoadObj filename materialPath in
  if negb (tinyobj.ret obj) then
    Throw (runtime_error
             ("failed to load model '" ++ filename ++ "':" ++ newline ++ tinyobj.err obj)%string)
  else
    let materials := LoadModel_materials (tinyobj.objMaterials obj) in
    g ← LoadModel_geometry (tinyobj.objAttrib obj) (tinyobj.objShapes obj);
    mret (mkModel (vertices g) (indices g) materials None).

(** *** The corners of a parse, in the order the loops visit them *)

(** Every corner of every shape, paired with the mesh it belongs to. *)
Definition corners (objShapes : list tinyobj.shape_t)
  : list (tinyobj.mesh_t * tinyobj.index_t) :=
  concat (map (fun shape =>
                 map (fun index => (tinyobj.mesh shape, index))
                   (tinyobj.indices (tinyobj.mesh shape)))
            objShapes).

(** The attribute tuples of the corners [cs], the first of them assembled
    with the counter at [faceId]. *)
Fixpoint corner_vertices (objAttrib : tinyobj.attrib_t F)
    (cs : list (tinyobj.mesh_t * tinyobj.index_t)) (faceId : nat)
  : outcome (list (Vertex F)) :=
  match cs with
  | [] => mret []
  | (mesh, index) :: cs' =>
      vertex ← LoadModel_vertex objAttrib mesh faceId index;
      rest ← corner_vertices objAttrib cs' (S faceId);
      mret (vertex :: rest)
  end.

(** The pool after welding the tuples [vs] in order, starting from [g]. *)
Definition weld_all (vs : list (Vertex F)) (g : Geometry) : Geometry :=
  foldl (fun g vertex =>
           LoadModel_weld vertex
             (mkGeometry (vertices g) (indices g) (uniqueVertices g) (S (faceId g))))
    g vs.

(** The welding invariant: after the tuples [vs], the pool [g] holds their
    first occurrences, the map sends each stored vertex to its (cast)
    position, and the index emitted for a corner is the (cast) position
    of that corner's tuple. *)
Record pool_inv (vs : list (Vertex F)) (g : Geometry) : Prop := mkPoolInv
  { pool_vertices : vertices g = reverse (remove_dups (reverse vs));
    pool_map_sound : ∀ v i, uniqueVertices g !! v = Some i →
      ∃ pos, vertices g !! pos = Some v ∧ i = to_uint32 pos;
    pool_map_complete : ∀ v, v ∈ vertices g → is_Some (uniqueVertices g !! v);
    pool_indices_length : length (indices g) = length vs;
    pool_indices : ∀ k v, vs !! k = Some v →
      ∃ pos, vertices g !! pos = Some v ∧ indices g !! k = Some (to_uint32 pos) }.

(** A sequence without its repeats, each element kept where it first occurs. *)
Definition first_occurrences (vs : list (Vertex F)) : list (Vertex F) :=
  reverse (remove_dups (reverse vs)).

(** [LoadModel_corner] with the mesh and the corner as one argument. *)
Definition LoadModel_corner_at (objAttrib : tinyobj.attrib_t F) (g : Geometry)
    (c : tinyobj.mesh_t * tinyobj.index_t) : outcome Geometry :=
  LoadModel_corner objAttrib c.1 g c.2.

(** *** CreateSphere *)

(** Lines 161-168: the vertex of generated point [i]. *)
Definition CreateSphere_vertex (center : glm.vec3 F) (icosphere : Icosphere F) (i : nat)
  : outcome (Vertex F) :=
  px ← subscript (Vertices icosphere) (i * 3 + 0);
  py ← subscript (Vertices icosphere) (i * 3 + 1);
  pz ← subscript (Vertices icosphere) (i * 3 + 2);
  nx ← subscript (Normals icosphere) (i * 3 + 0);
  ny ← subscript (Normals icosphere) (i * 3 + 1);
  nz ← subscript (Normals icosphere) (i * 3 + 2);
  u ← subscript (TexCoords icosphere) (i * 2 + 0);
  v ← subscript (TexCoords icosphere) (i * 2 + 1);
  mret (mkVertex (vec3_add (glm.Vec3 px py pz) center) (glm.Vec3 nx ny nz)
          (glm.Vec2 u v) 0).

(** Lines 159-169: [for (size_t i = 0; i != VertexCount(); ++i)], with
    [remaining = VertexCount() - i]. *)
Fixpoint CreateSphere_loop (center : glm.vec3 F) (icosphere : Icosphere F)
    (remaining i : nat) (vertices : list (Vertex F)) : outcome (list (Vertex F)) :=
  match remaining with
  | 0 => mret vertices
  | S remaining' =>
      v ← CreateSphere_vertex center icosphere i;
      CreateSphere_loop center icosphere remaining' (S i) (vertices ++ [v])
  end.

Definition CreateSphere (center : glm.vec3 F) (radius : F) (subdivision : Z)
    (material : Material F R) (isProcedural : bool) : outcome (Model F R) :=
  let icosphere := Icosphere_new radius subdivision true in
  vertices ← CreateSphere_loop center icosphere (VertexCount icosphere) 0 [];
  mret (mkModel vertices (Indices icosphere) [material]
          (if isProcedural then Some (Sphere center radius) else None)).

(** *** SetMaterial

    The call returns normally or throws; either way the object is left in
    some state, returned as the second component. *)
Definition SetMaterial (material : Material F R) (this : Model F R)
  : outcome unit * Model F R :=
  if decide (length (materials_ this) ≠ 1) then
    (Throw (runtime_error "cannot change material on a multi-material model"%string), this)
  else
    (Ok tt,
     mkModel (vertices_ this) (indices_ this) (<[0 := material]> (materials_ this))
       (procedural_ this)).

(** *** Transform *)

(** Lines 194-195: the body of the loop, on one vertex. *)
Definition Transform_vertex (transform transformIT : mat4) (vertex : Vertex F) : Vertex F :=
  let position :=
    glm.vec3_of (mat4_mul_vec4 transform (glm.vec4_of (Position vertex) one)) in
  let normal :=
    glm.vec3_of (mat4_mul_vec4 transformIT (glm.vec4_of (Normal vertex) zero)) in
  mkVertex position normal (TexCoord vertex) (MaterialIndex vertex).

(** Lines 192-196: [for (auto& vertex : vertices_)], rewriting slot [i] of
    the vector in place; [remaining] slots are still to be visited. *)
Fixpoint Transform_loop (transform transformIT : mat4) (remaining i : nat)
    (vertices : list (Vertex F)) : list (Vertex F) :=
  match remaining with
  | 0 => vertices
  | S remaining' =>
      match vertices !! i with
      | Some vertex =>
          Transform_loop transform transformIT remaining' (S i)
            (<[i := Transform_vertex transform transformIT vertex]> vertices)
      | None => vertices
      end
  end.

Definition Transform (transform : mat4) (this : Model F R) : Model F R :=
  let transformIT := inverseTranspose transform in
  mkModel
    (Transform_loop transform transformIT (length (vertices_ this)) 0 (vertices_ this))
    (indices_ this) (materials_ this) (procedural_ this).

End Assets.

Arguments Geometry F {_ _}.
Arguments Geometry_init F {_ _}.

(** ** What the parser guarantees *)

(** Faces are triangulated ([LoadObj] is called with its default
    [triangulate = true]): every mesh holds three corners per face. *)
Definition triangulated (objShapes : list tinyobj.shape_t) : Prop :=
  Forall (fun shape => length (tinyobj.indices (tinyobj.mesh shape)) mod 3 = 0)
    objShapes.

(** A face's material id is [-1] (none) or the position of a parsed material. *)
Definition material_ids_resolved {F : Type} (obj : tinyobj.parsed F) : Prop :=
  Forall (fun shape =>
            Forall (fun id => id = (-1)%Z
                              ∨ (0 ≤ id < Z.of_nat (length (tinyobj.objMaterials obj)))%Z)
              (tinyobj.material_ids (tinyobj.mesh shape)))
    (tinyobj.objShapes obj).

(** The vertex count fits the 32-bit index type. *)
Definition fits_uint32 {A : Type} (vertices : list A) : Prop :=
  (N.of_nat (length vertices) ≤ 2 ^ 32)%N.

(** One material id per face of three corners, as the parser fills a mesh. *)
Definition one_id_per_face (objShapes : list tinyobj.shape_t) : Prop :=
  Forall (fun shape =>
            length (tinyobj.indices (tinyobj.mesh shape))
            = 3 * length (tinyobj.material_ids (tinyobj.mesh shape)))
    objShapes.

(** ** The reads of one corner

    [LoadModel_vertex] subscripts three vectors with [int] expressions and
    one with the face counter; these are the subscripts that stay inside
    their vectors. *)

(** [v[3 * i + 0]], [v[3 * i + 1]], [v[3 * i + 2]] (stride 3), or the two
    reads of stride 2, are all in range. *)
Definition strided_reads_in_range {A : Type} (stride : Z) (v : list A) (i : Z) : Prop :=
  (0 ≤ i)%Z ∧ (stride * i + (stride - 1) ≤ INT_MAX)%Z
  ∧ (stride * i + (stride - 1) < Z.of_nat (length v))%Z.

Definition corner_in_range {F : Type} (objAttrib : tinyobj.attrib_t F)
    (mesh : tinyobj.mesh_t) (faceId : nat) (index : tinyobj.index_t) : Prop :=
  strided_reads_in_range 3 (tinyobj.vertices objAttrib) (tinyobj.vertex_index index)
  ∧ strided_reads_in_range 3 (tinyobj.normals objAttrib) (tinyobj.normal_index index)
  ∧ (tinyobj.texcoords objAttrib ≠ [] →
     strided_reads_in_range 2 (tinyobj.texcoords objAttrib) (tinyobj.texcoord_index index))
  ∧ faceId / 3 < length (tinyobj.material_ids mesh).

(** ** The invariants of a Model

    What [LoadModel] and [CreateSphere] establish and the later operations
    rely on: indices designate stored vertices and come in triangles, there
    is a material, and every vertex names one. *)
Record Model_valid {F R : Type} (m : Model F R) : Prop := mkModelValid
  { valid_indices :
      Forall (fun i => (i < N.of_nat (length (vertices_ m)))%N) (indices_ m);
    valid_triangles : length (indices_ m) mod 3 = 0;
    valid_materials : materials_ m ≠ [];
    valid_material_index :
      Forall (fun v => (0 ≤ MaterialIndex v < Z.of_nat (length (materials_ m)))%Z)
        (vertices_ m) }.

(** ** std::hash<Assets::Vertex> (lines 21-41)

    [size_t] is taken to be 64 bits wide.  In [Combine] the sum binds
    tighter than [^]: the result is [hash0 ^ (hash1 + 0x9e3779b9 +
    (hash0 << 6) + (hash0 >> 2))], every sum and the shift wrapping. *)

Definition size_t_wrap (z : Z) : Z := (z mod 2 ^ 64)%Z.

Definition Combine (hash0 hash1 : Z) : Z :=
  Z.lxor hash0
    (size_t_wrap
       (size_t_wrap (size_t_wrap (hash1 + 2654435769) + size_t_wrap (Z.shiftl hash0 6))
        + Z.shiftr hash0 2)).

Section VertexHash.
Context {F : Type}.

(** [std::hash<glm::vec3>], [std::hash<glm::vec2>] and [std::hash<int>]. *)
Variables (hash_vec3 : glm.vec3 F → Z) (hash_vec2 : glm.vec2 F → Z) (hash_int : Z → Z).

Definition Vertex_hash (vertex : Vertex F) : Z :=
  Combine (hash_vec3 (Position vertex))
    (Combine (hash_vec3 (Normal vertex))
       (Combine (hash_vec2 (TexCoord vertex)) (hash_int (MaterialIndex vertex)))).
End VertexHash.

(** ** IEEE 754 binary32, and sample inputs *)

Module Binary32.
Definition prec : Z := 24.
Definition emax : Z := 128.

Definition zero : spec_float := S754_zero false.
Definition one : spec_float := S754_finite false 8388608 (-23).
Definition two : spec_float := S754_finite false 8388608 (-22).
Definition quarter : spec_float := S754_finite false 8388608 (-25).
Definition three_quarters : spec_float := S754_finite false 12582912 (-24).
Definition seven_tenths : spec_float := S754_finite false 11744051 (-24).
Definition add : spec_float → spec_float → spec_float := SFadd prec emax.
Definition sub : spec_float → spec_float → spec_float := SFsub prec emax.

#[global] Instance float_eq_dec : EqDecision spec_float.
Proof. solve_decision. Defined.

Definition float_to_sum (f : spec_float) : bool + (bool + (unit + bool * positive * Z)) :=
  match f with
  | S754_zero s => inl s
  | S754_infinity s => inr (inl s)
  | S754_nan => inr (inr (inl tt))
  | S754_finite s m e => inr (inr (inr (s, m, e)))
  end.

Definition float_of_sum (x : bool + (bool + (unit + bool * positive * Z))) : spec_float :=
  match x with
  | inl s => S754_zero s
  | inr (inl s) => S754_infinity s
  | inr (inr (inl _)) => S754_nan
  | inr (inr (inr (s, m, e))) => S754_finite s m e
  end.

#[global] Instance float_countable : Countable spec_float.
Proof.
  refine (inj_countable' float_to_sum float_of_sum _).
  by intros [].
Defined.

(** A unit square in the plane [z = 0], one normal, four texture
    coordinates with [v] in {0, 1/4, 1}. *)
Definition square_attrib : tinyobj.attrib_t spec_float :=
  tinyobj.Attrib
    [zero; zero; zero;  one; zero; zero;  one; one; zero;  zero; one; zero]
    [zero; zero; one]
    [zero; zero;  one; quarter;  one; one;  zero; one].

Definition square_attrib_no_uv : tinyobj.attrib_t spec_float :=
  tinyobj.Attrib (tinyobj.vertices square_attrib) (tinyobj.normals square_attrib) [].

Definition corner (i : Z) : tinyobj.index_t := tinyobj.Index i 0 i.

Definition red : tinyobj.material_t spec_float := tinyobj.Mtl (one, zero, zero).
Definition green : tinyobj.material_t spec_float := tinyobj.Mtl (zero, one, zero).

(** One shape, two triangles sharing the diagonal, both of material 1. *)
Definition square_obj : tinyobj.parsed spec_float :=
  tinyobj.Parsed true square_attrib
    [tinyobj.Shape
       (tinyobj.Mesh [corner 0; corner 1; corner 2; corner 0; corner 2; corner 3]
          [1%Z; 1%Z])]
    [red; green] "" "".

(** The same square, no texture coordinates, no materials. *)
Definition plain_obj : tinyobj.parsed spec_float :=
  tinyobj.Parsed true square_attrib_no_uv
    [tinyobj.Shape
       (tinyobj.Mesh [corner 0; corner 1; corner 2; corner 0; corner 2; corner 3]
          [(-1)%Z; (-1)%Z])]
    [] "" "".

(** Two shapes of one triangle each; the second mesh carries two material
    ids, and the running counter selects the second of them. *)
Definition split_obj : tinyobj.parsed spec_float :=
  tinyobj.Parsed true square_attrib
    [tinyobj.Shape (tinyobj.Mesh [corner 0; corner 1; corner 2] [(-1)%Z]);
     tinyobj.Shape (tinyobj.Mesh [corner 0; corner 2; corner 3] [0%Z; 1%Z])]
    [red; green] "" "".

(** Two shapes of one triangle each, one material id per face. *)
Definition pair_obj : tinyobj.parsed spec_float :=
  tinyobj.Parsed true square_attrib
    [tinyobj.Shape (tinyobj.Mesh [corner 0; corner 1; corner 2] [0%Z]);
     tinyobj.Shape (tinyobj.Mesh [corner 0; corner 2; corner 3] [1%Z])]
    [red; green] "" "".

Definition missing_obj : tinyobj.parsed spec_float :=
  tinyobj.Parsed false (tinyobj.Attrib [] [] []) [] [] "" "cannot open file".

Definition LoadObj (filename materialPath : string) : tinyobj.parsed spec_float :=
  if decide (filename = "square.obj"%string) then square_obj
  else if decide (filename = "plain.obj"%string) then plain_obj
  else if decide (filename = "split.obj"%string) then split_obj
  else if decide (filename = "pair.obj"%string) then pair_obj
  else missing_obj.

Definition parent_path (filename : string) : string := "".

Definition LoadModel : string → outcome (Model spec_float unit) :=
  LoadModel zero one seven_tenths sub tt LoadObj parent_path.

(** A generator result with three points, the first two of them equal. *)
Definition Icosphere_new (radius : spec_float) (subdivision : Z) (smooth : bool)
  : Icosphere spec_float :=
  mkIcosphere 3
    [radius; zero; zero;  radius; zero; zero;  zero; radius; zero]
    [one; zero; zero;  one; zero; zero;  zero; one; zero]
    [zero; quarter;  zero; quarter;  one; one]
    [0%N; 1%N; 2%N].

Definition CreateSphere
  : glm.vec3 spec_float → spec_float → Z → Material spec_float unit → bool →
    outcome (Model spec_float unit) :=
  CreateSphere add Icosphere_new.

Definition gray : Material spec_float unit :=
  mkMaterial (glm.Vec4 seven_tenths seven_tenths seven_tenths one) tt.

(** The models these inputs are expected to give. *)

(** A vertex of the square: position [(px, py, 0)], normal [(0, 0, 1)]. *)
Definition square_vertex (px py s t : spec_float) (materialIndex : Z)
  : Vertex spec_float :=
  mkVertex (glm.Vec3 px py zero) (glm.Vec3 zero zero one) (glm.Vec2 s t) materialIndex.

Definition square_model : Model spec_float unit :=
  mkModel
    [square_vertex zero zero zero one 1;
     square_vertex one zero one three_quarters 1;
     square_vertex one one one zero 1;
     square_vertex zero one zero zero 1]
    [0%N; 1%N; 2%N; 0%N; 2%N; 3%N]
    [mkMaterial (glm.Vec4 one zero zero one) tt;
     mkMaterial (glm.Vec4 zero one zero one) tt]
    None.

Definition plain_model : Model spec_float unit :=
  mkModel
    [square_vertex zero zero zero zero 0;
     square_vertex one zero zero zero 0;
     square_vertex one one zero zero 0;
     square_vertex zero one zero zero 0]
    [0%N; 1%N; 2%N; 0%N; 2%N; 3%N]
    [gray]
    None.

Definition split_model : Model spec_float unit :=
  mkModel
    [square_vertex zero zero zero one 0;
     square_vertex one zero one three_quarters 0;
     square_vertex one one one zero 0;
     square_vertex zero zero zero one 1;
     square_vertex one one one zero 1;
     square_vertex zero one zero zero 1]
    [0%N; 1%N; 2%N; 3%N; 4%N; 5%N]
    [mkMaterial (glm.Vec4 one zero zero one) tt;
     mkMaterial (glm.Vec4 zero one zero one) tt]
    None.

Definition center : glm.vec3 spec_float := glm.Vec3 one one one.

(** [CreateSphere center 2 0 gray isProcedural]: the three points moved by
    [(1, 1, 1)], the repeated point kept twice. *)
Definition sphere_model (isProcedural : bool) : Model spec_float unit :=
  mkModel
    [mkVertex (glm.Vec3 (add two one) one one) (glm.Vec3 one zero zero)
       (glm.Vec2 zero quarter) 0;
     mkVertex (glm.Vec3 (add two one) one one) (glm.Vec3 one zero zero)
       (glm.Vec2 zero quarter) 0;
     mkVertex (glm.Vec3 one (add two one) one) (glm.Vec3 zero one zero)
       (glm.Vec2 one one) 0]
    [0%N; 1%N; 2%N]
    [gray]
    (if isProcedural then Some (Sphere center two) else None).

(** A parser that returns the same parse for every file. *)
Definition LoadObj_const (obj : tinyobj.parsed spec_float) (filename materialPath : string)
  : tinyobj.parsed spec_float := obj.

(** The square without normal references: every corner has
    [normal_index = -1], the parser's mark for an absent normal. *)
Definition bare_obj : tinyobj.parsed spec_float :=
  tinyobj.Parsed true square_attrib
    [tinyobj.Shape
       (tinyobj.Mesh
          [tinyobj.Index 0 (-1) 0; tinyobj.Index 1 (-1) 1; tinyobj.Index 2 (-1) 2]
          [0%Z])]
    [red] "" "".

(** One parsed material. *)
Definition red_obj : tinyobj.parsed spec_float :=
  tinyobj.Parsed true square_attrib
    [tinyobj.Shape (tinyobj.Mesh [corner 0; corner 1; corner 2] [0%Z])]
    [red] "" "".

(** A generator result whose arrays stop short of its point count. *)
Definition Icosphere_short (radius : spec_float) (subdivision : Z) (smooth : bool)
  : Icosphere spec_float :=
  mkIcosphere 2 [radius; zero; zero] [one; zero; zero] [zero; zero] [0%N; 1%N; 0%N].

(** Sample hashes of the fields: the mantissa of the first component, and
    the integer itself reduced to [size_t]. *)
Definition float_bits (f : spec_float) : Z :=
  match f with
  | S754_finite _ m _ => Z.pos m
  | _ => 0
  end.
Definition hash_vec3 (v : glm.vec3 spec_float) : Z := float_bits (glm.x3 v).
Definition hash_vec2 (v : glm.vec2 spec_float) : Z := float_bits (glm.x2 v).
Definition hash_int (i : Z) : Z := size_t_wrap i.

(** A sample matrix type: the uniform scalings, each given by its factor.
    The product scales [x], [y] and [z]; the inverse transpose of the
    scaling by [s] is the scaling by [1 / s]. *)
Definition mul : spec_float → spec_float → spec_float := SFmul prec emax.
Definition div : spec_float → spec_float → spec_float := SFdiv prec emax.
Definition scaling_mul_vec4 (s : spec_float) (v : glm.vec4 spec_float)
  : glm.vec4 spec_float :=
  glm.Vec4 (mul s (glm.x4 v)) (mul s (glm.y4 v)) (mul s (glm.z4 v)) (glm.w4 v).
Definition scaling_inverseTranspose (s : spec_float) : spec_float := div one s.

Definition three : spec_float := S754_finite false 12582912 (-22).

(** A second sample matrix type: the translation by [t], and its inverse
    transpose, the identity but for the last row [(-t, 1)].  The
    translation moves [(x, y, z, w)] by [w * t]; its inverse transpose
    keeps [x], [y], [z] and changes [w] only.  Each is the inverse
    transpose of the other. *)
Inductive shift : Type :=
| Shift (t : glm.vec3 spec_float)
| ShiftIT (t : glm.vec3 spec_float).

Definition shift_mul_vec4 (M : shift) (v : glm.vec4 spec_float) : glm.vec4 spec_float :=
  match M with
  | Shift t =>
      glm.Vec4 (add (glm.x4 v) (mul (glm.x3 t) (glm.w4 v)))
        (add (glm.y4 v) (mul (glm.y3 t) (glm.w4 v)))
        (add (glm.z4 v) (mul (glm.z3 t) (glm.w4 v)))
        (glm.w4 v)
  | ShiftIT t =>
      glm.Vec4 (glm.x4 v) (glm.y4 v) (glm.z4 v)
        (sub (glm.w4 v)
           (add (add (mul (glm.x3 t) (glm.x4 v)) (mul (glm.y3 t) (glm.y4 v)))
              (mul (glm.z3 t) (glm.z4 v))))
  end.

Definition shift_inverseTranspose (M : shift) : shift :=
  match M with
  | Shift t => ShiftIT t
  | ShiftIT t => Shift t
  end.
End Binary32.


(** * Properties *)

(** ** Outcomes, subscripts and loops *)

Lemma bind_Ok {A B : Type} (c : outcome A) (k : A → outcome B) (b : B) :
  c ≫= k = Ok b ↔ ∃ a, c = Ok a ∧ k a = Ok b.
Proof.
  destruct c as [a| |]; simpl; split; try done.
  - intros Hk. by exists a.
  - by intros (a' & [= <-] & Hk).
  - by intros (? & ? & _).
  - by intros (? & ? & _).
Qed.

Lemma bind_ret {A B : Type} (a : A) (k : A → outcome B) : Ok a ≫= k = k a.
Proof. done. Qed.

Lemma subscript_Ok {A : Type} (v : list A) (i : nat) (a : A) :
  subscript v i = Ok a ↔ v !! i = Some a.
Proof. unfold subscript. destruct (v !! i); split; congruence. Qed.

Lemma subscript_int_Ok {A : Type} (v : list A) (i : Z) (a : A) :
  subscript_int v i = Ok a ↔ (0 ≤ i ≤ INT_MAX)%Z ∧ v !! Z.to_nat i = Some a.
Proof.
  unfold subscript_int. case_decide as Hi; rewrite ?subscript_Ok; split.
  - done.
  - by intros [_ ?].
  - done.
  - by intros [? _].
Qed.

Lemma to_uint32_le (n : nat) : (to_uint32 n ≤ N.of_nat n)%N.
Proof. unfold to_uint32. apply N.Div0.mod_le. Qed.

Lemma to_uint32_small (n : nat) : (N.of_nat n < 2 ^ 32)%N → to_uint32 n = N.of_nat n.
Proof. intros Hn. unfold to_uint32. by apply N.mod_small. Qed.

Lemma for_each_cons {S X : Type} (body : S → X → outcome S) (x : X) (xs : list X) (s : S) :
  for_each body (x :: xs) s = body s x ≫= for_each body xs.
Proof. done. Qed.

Lemma for_each_app {S X : Type} (body : S → X → outcome S) (xs ys : list X) (s : S) :
  for_each body (xs ++ ys) s = for_each body xs s ≫= for_each body ys.
Proof.
  revert s. induction xs as [|x xs IH]; intros s; simpl; [done|].
  destruct (body s x) as [s'| |]; simpl; [apply IH|done|done].
Qed.

Lemma for_each_map {S X Y : Type} (body : S → Y → outcome S) (f : X → Y)
    (xs : list X) (s : S) :
  for_each body (map f xs) s = for_each (fun s x => body s (f x)) xs s.
Proof.
  revert s. induction xs as [|x xs IH]; intros s; simpl; [done|].
  destruct (body s (f x)) as [s'| |]; simpl; [apply IH|done|done].
Qed.

(** ** First occurrences *)

Section FirstOccurrences.
Context {F : Type} `{Countable F}.
Implicit Types (v : Vertex F) (vs : list (Vertex F)).

Lemma first_occurrences_snoc vs v :
  first_occurrences (vs ++ [v]) =
  if decide (v ∈ vs) then first_occurrences vs else first_occurrences vs ++ [v].
Proof.
  unfold first_occurrences. rewrite reverse_snoc. simpl.
  destruct (decide_rel elem_of v (reverse vs)) as [Hin|Hin];
    rewrite elem_of_reverse in Hin; case_decide; try done.
  by rewrite reverse_cons.
Qed.

Lemma elem_of_first_occurrences vs v : v ∈ first_occurrences vs ↔ v ∈ vs.
Proof.
  unfold first_occurrences.
  by rewrite elem_of_reverse, elem_of_remove_dups, elem_of_reverse.
Qed.

Lemma NoDup_first_occurrences vs : NoDup (first_occurrences vs).
Proof.
  unfold first_occurrences.
  rewrite reverse_Permutation. apply NoDup_remove_dups.
Qed.

Lemma first_occurrences_prefix vs1 vs2 :
  ∃ tail, first_occurrences (vs1 ++ vs2) = first_occurrences vs1 ++ tail.
Proof.
  induction vs2 as [|v vs2 IH] using rev_ind.
  - exists []. by rewrite !app_nil_r.
  - destruct IH as [tail IH]. rewrite app_assoc, first_occurrences_snoc, IH.
    case_decide; [by exists tail|].
    exists (tail ++ [v]). by rewrite app_assoc.
Qed.

Lemma size_first_occurrences vs :
  length (first_occurrences vs) = size (list_to_set vs : gset (Vertex F)).
Proof.
  rewrite <-(size_list_to_set (C:=gset (Vertex F)) (first_occurrences vs))
    by apply NoDup_first_occurrences.
  f_equal. apply set_eq. intros v.
  by rewrite !elem_of_list_to_set, elem_of_first_occurrences.
Qed.
End FirstOccurrences.

(** ** The welding pool *)

Section Pool.
Context {F : Type} `{Countable F}.
Implicit Types (g : Geometry F) (v : Vertex F) (vs : list (Vertex F)).

Lemma LoadModel_weld_faceId v g : faceId (LoadModel_weld v g) = faceId g.
Proof.
  unfold LoadModel_weld, map_subscript.
  destruct (uniqueVertices g !! v) as [i|] eqn:Hv; simpl.
  - by rewrite Hv.
  - by rewrite lookup_insert_eq.
Qed.

Lemma pool_inv_init : pool_inv [] (Geometry_init F).
Proof.
  split; simpl; try done.
  - intros v Hv. by apply elem_of_nil in Hv.
Qed.

Lemma pool_inv_weld vs v g n :
  pool_inv vs g →
  pool_inv (vs ++ [v])
    (LoadModel_weld v (mkGeometry (vertices g) (indices g) (uniqueVertices g) n)).
Proof.
  intros [Hvs Hsound Hcomplete Hlen Hidx].
  fold (first_occurrences vs) in Hvs.
  unfold LoadModel_weld, map_subscript; simpl.
  destruct (uniqueVertices g !! v) as [i|] eqn:Hv; simpl.
  - (* a repeat: nothing is appended, the recorded index is emitted *)
    rewrite Hv. destruct (Hsound _ _ Hv) as (pos & Hpos & ->).
    assert (v ∈ vs) as Hin.
    { apply elem_of_first_occurrences. rewrite <-Hvs.
      by eapply list_elem_of_lookup_2. }
    split; simpl.
    + fold (first_occurrences (vs ++ [v])).
      rewrite first_occurrences_snoc. by case_decide.
    + done.
    + done.
    + rewrite !length_app. simpl. lia.
    + intros k v' Hk. apply lookup_snoc_Some in Hk as [[Hlt Hk]|[-> ->]].
      * destruct (Hidx _ _ Hk) as (pos' & ? & ?). exists pos'. split; [done|].
        by rewrite lookup_app_l by (apply lookup_lt_is_Some; eauto).
      * exists pos. split; [done|].
        rewrite <-Hlen. by rewrite lookup_app_r, Nat.sub_diag by lia.
  - (* a first occurrence: appended, and recorded at the old length *)
    rewrite lookup_insert_eq.
    assert (v ∉ vs) as Hnin.
    { intros Hin. apply elem_of_first_occurrences in Hin. rewrite <-Hvs in Hin.
      apply Hcomplete in Hin as [? Hin]. congruence. }
    split; simpl.
    + fold (first_occurrences (vs ++ [v])).
      rewrite first_occurrences_snoc, Hvs. by case_decide.
    + intros v' i'. rewrite lookup_insert. case_decide as Heq.
      * intros [= <-]. subst v'. exists (length (vertices g)). split; [|done].
        by rewrite lookup_app_r, Nat.sub_diag by lia.
      * intros Hv'. destruct (Hsound _ _ Hv') as (pos & Hpos & ->).
        exists pos. split; [|done].
        by rewrite lookup_app_l by (apply lookup_lt_is_Some; eauto).
    + intros v'. rewrite elem_of_app, list_elem_of_singleton, lookup_insert.
      case_decide; [by eauto|]. intros [Hin| ->]; [by apply Hcomplete|done].
    + rewrite !length_app. simpl. lia.
    + intros k v' Hk. apply lookup_snoc_Some in Hk as [[Hlt Hk]|[-> ->]].
      * destruct (Hidx _ _ Hk) as (pos & Hpos & Hk'). exists pos.
        rewrite !lookup_app_l by (apply lookup_lt_is_Some; eauto). done.
      * exists (length (vertices g)). rewrite <-Hlen.
        by rewrite !lookup_app_r, !Nat.sub_diag by lia.
Qed.

Lemma weld_all_snoc vs v g :
  weld_all (vs ++ [v]) g =
  LoadModel_weld v
    (mkGeometry (vertices (weld_all vs g)) (indices (weld_all vs g))
       (uniqueVertices (weld_all vs g)) (S (faceId (weld_all vs g)))).
Proof. unfold weld_all. by rewrite foldl_snoc. Qed.

Lemma weld_all_inv vs : pool_inv vs (weld_all vs (Geometry_init F)).
Proof.
  induction vs as [|v vs IH] using rev_ind.
  - apply pool_inv_init.
  - rewrite weld_all_snoc. by apply pool_inv_weld.
Qed.

Lemma weld_all_faceId vs g : faceId (weld_all vs g) = faceId g + length vs.
Proof.
  induction vs as [|v vs IH] using rev_ind.
  - simpl. lia.
  - rewrite weld_all_snoc, LoadModel_weld_faceId, length_app. simpl. lia.
Qed.
End Pool.

(** ** LoadModel: the run of the geometry loop *)

Section LoadModelRun.
Context {F : Type} `{Countable F} {R : Type}.
Variables (zero one seven_tenths : F) (fsub : F → F → F) (zeroR : R).
Variables (LoadObj : string → string → tinyobj.parsed F)
  (parent_path : string → string).
Implicit Types (g : Geometry F) (v : Vertex F) (vs : list (Vertex F)).
Implicit Types (objAttrib : tinyobj.attrib_t F) (mesh : tinyobj.mesh_t).
Implicit Types (index : tinyobj.index_t) (m : Model F R).

Lemma LoadModel_vertex_MaterialIndex objAttrib mesh n index v :
  LoadModel_vertex zero one fsub objAttrib mesh n index = Ok v →
  ∃ materialId, tinyobj.material_ids mesh !! (n / 3) = Some materialId
                ∧ MaterialIndex v = Z.max 0 materialId.
Proof.
  unfold LoadModel_vertex. intros Hv.
  do 7 (apply bind_Ok in Hv as (? & _ & Hv)).
  apply bind_Ok in Hv as (materialId & Hid & [= <-]).
  apply subscript_Ok in Hid. by exists materialId.
Qed.

Lemma LoadModel_vertex_TexCoord objAttrib mesh n index v :
  LoadModel_vertex zero one fsub objAttrib mesh n index = Ok v →
  match tinyobj.texcoords objAttrib with
  | [] => TexCoord v = glm.Vec2 zero zero
  | _ :: _ =>
      ∃ s t,
        tinyobj.texcoords objAttrib
          !! Z.to_nat (2 * tinyobj.texcoord_index index + 0) = Some s
        ∧ tinyobj.texcoords objAttrib
          !! Z.to_nat (2 * tinyobj.texcoord_index index + 1) = Some t
        ∧ TexCoord v = glm.Vec2 s (fsub one t)
  end.
Proof.
  unfold LoadModel_vertex. intros Hv.
  do 6 (apply bind_Ok in Hv as (? & _ & Hv)).
  apply bind_Ok in Hv as (texCoord & Htc & Hv).
  apply bind_Ok in Hv as (materialId & _ & [= <-]). simpl.
  destruct (tinyobj.texcoords objAttrib) as [|t0 ts]; [by injection Htc|].
  apply bind_Ok in Htc as (s & Hs & Htc).
  apply bind_Ok in Htc as (t & Ht & [= <-]).
  apply subscript_int_Ok in Hs as [_ Hs]. apply subscript_int_Ok in Ht as [_ Ht].
  by exists s, t.
Qed.

Lemma LoadModel_shapes_corners objAttrib objShapes g :
  for_each (LoadModel_shape zero one fsub objAttrib) objShapes g =
  for_each (LoadModel_corner_at zero one fsub objAttrib) (corners objShapes) g.
Proof.
  revert g. induction objShapes as [|shape objShapes IH]; intros g; [done|].
  change (corners (shape :: objShapes))
    with (map (fun index => (tinyobj.mesh shape, index))
            (tinyobj.indices (tinyobj.mesh shape)) ++ corners objShapes).
  rewrite for_each_app, for_each_map, for_each_cons.
  change (LoadModel_shape zero one fsub objAttrib g shape)
    with (for_each
            (fun s x => LoadModel_corner_at zero one fsub objAttrib s (tinyobj.mesh shape, x))
            (tinyobj.indices (tinyobj.mesh shape)) g).
  destruct (for_each _ (tinyobj.indices (tinyobj.mesh shape)) g); simpl;
    [apply IH|done|done].
Qed.

Lemma LoadModel_corners_run objAttrib cs g :
  for_each (LoadModel_corner_at zero one fsub objAttrib) cs g =
  vs ← corner_vertices zero one fsub objAttrib cs (faceId g); mret (weld_all vs g).
Proof.
  revert g. induction cs as [|[mesh index] cs IH]; intros g; [done|].
  rewrite for_each_cons.
  change (corner_vertices zero one fsub objAttrib ((mesh, index) :: cs) (faceId g))
    with (vertex ← LoadModel_vertex zero one fsub objAttrib mesh (faceId g) index;
          rest ← corner_vertices zero one fsub objAttrib cs (S (faceId g));
          mret (vertex :: rest)).
  change (LoadModel_corner_at zero one fsub objAttrib g (mesh, index))
    with (vertex ← LoadModel_vertex zero one fsub objAttrib mesh (faceId g) index;
          mret (LoadModel_weld vertex
                  (mkGeometry (vertices g) (indices g) (uniqueVertices g)
                     (S (faceId g))))).
  destruct (LoadModel_vertex _ _ _ _ _ _ _) as [v| |]; [|done|done].
  rewrite !bind_ret. rewrite IH, LoadModel_weld_faceId.
  change (faceId (mkGeometry (vertices g) (indices g) (uniqueVertices g) (S (faceId g))))
    with (S (faceId g)).
  by destruct (corner_vertices _ _ _ _ _ _) as [vs| |].
Qed.

Lemma corner_vertices_lookup objAttrib cs n vs :
  corner_vertices zero one fsub objAttrib cs n = Ok vs →
  length vs = length cs
  ∧ ∀ k mesh index, cs !! k = Some (mesh, index) →
      ∃ v, vs !! k = Some v
           ∧ LoadModel_vertex zero one fsub objAttrib mesh (n + k) index = Ok v.
Proof.
  revert n vs. induction cs as [|[mesh0 index0] cs IH]; intros n vs; simpl.
  - intros [= <-]. split; [done|]. intros k ? ? Hk. by rewrite lookup_nil in Hk.
  - intros Hrun. apply bind_Ok in Hrun as (v0 & Hv0 & Hrun).
    apply bind_Ok in Hrun as (rest & Hrest & [= <-]).
    destruct (IH _ _ Hrest) as [Hlen Hk]. split; [simpl; lia|].
    intros [|k] mesh index; simpl.
    + intros [= <- <-]. exists v0. by rewrite Nat.add_0_r.
    + intros Hc. destruct (Hk _ _ _ Hc) as (v & ? & Hv). exists v.
      by replace (n + S k) with (S n + k) by lia.
Qed.

Lemma length_corners objShapes :
  length (corners objShapes) =
  sum_list (map (fun shape => length (tinyobj.indices (tinyobj.mesh shape))) objShapes).
Proof.
  unfold corners. induction objShapes as [|shape objShapes IH]; simpl; [done|].
  by rewrite length_app, length_map, IH.
Qed.

Lemma triangulated_corners objShapes :
  triangulated objShapes → length (corners objShapes) mod 3 = 0.
Proof.
  induction 1 as [|shape objShapes Hshape _ IH]; [done|].
  change (corners (shape :: objShapes))
    with (map (fun index => (tinyobj.mesh shape, index))
            (tinyobj.indices (tinyobj.mesh shape)) ++ corners objShapes).
  by rewrite length_app, length_map, Nat.Div0.add_mod, Hshape, IH.
Qed.

(** A returned [Model] comes from a successful parse whose corners all
    assembled; its buffers are those of the pool after the last corner. *)
Lemma LoadModel_Ok filename m :
  LoadModel zero one seven_tenths fsub zeroR LoadObj parent_path filename = Ok m →
  let obj := LoadObj filename (parent_path filename) in
  tinyobj.ret obj = true
  ∧ ∃ vs,
      corner_vertices zero one fsub (tinyobj.objAttrib obj)
        (corners (tinyobj.objShapes obj)) 0 = Ok vs
      ∧ m = mkModel (vertices (weld_all vs (Geometry_init F)))
              (indices (weld_all vs (Geometry_init F)))
              (LoadModel_materials one seven_tenths zeroR (tinyobj.objMaterials obj))
              None.
Proof.
  unfold LoadModel. simpl.
  destruct (tinyobj.ret (LoadObj filename (parent_path filename))); simpl; [|done].
  intros Hrun. split; [done|].
  apply bind_Ok in Hrun as (g & Hg & [= <-]).
  unfold LoadModel_geometry in Hg.
  rewrite LoadModel_shapes_corners, LoadModel_corners_run in Hg. simpl in Hg.
  apply bind_Ok in Hg as (vs & Hvs & [= <-]). by exists vs.
Qed.
End LoadModelRun.

(** ** LoadModel: materials *)

Section LoadModelMaterials.
Context {F R : Type}.
Variables (one seven_tenths : F) (zeroR : R).

Lemma foldl_push_back {A B : Type} (f : A → B) (xs : list A) (acc : list B) :
  foldl (fun acc x => acc ++ [f x]) acc xs = acc ++ map f xs.
Proof.
  revert acc. induction xs as [|x xs IH]; intros acc; simpl.
  - by rewrite app_nil_r.
  - by rewrite IH, <-app_assoc.
Qed.

Lemma LoadModel_materials_eq (objMaterials : list (tinyobj.material_t F)) :
  LoadModel_materials one seven_tenths zeroR objMaterials =
  match objMaterials with
  | [] => [mkMaterial (glm.Vec4 seven_tenths seven_tenths seven_tenths one) zeroR]
  | _ :: _ => map (LoadModel_material one zeroR) objMaterials
  end.
Proof.
  unfold LoadModel_materials. rewrite foldl_push_back. simpl.
  by destruct objMaterials.
Qed.

Lemma LoadModel_materials_length (objMaterials : list (tinyobj.material_t F)) :
  length (LoadModel_materials one seven_tenths zeroR objMaterials) =
  Nat.max 1 (length objMaterials).
Proof.
  rewrite LoadModel_materials_eq. destruct objMaterials; simpl; [done|].
  by rewrite length_map.
Qed.
End LoadModelMaterials.

(** ** LoadModel: what a returned Model holds *)

Section LoadModelClaims.
Context {F : Type} `{Countable F} {R : Type}.
Variables (zero one seven_tenths : F) (fsub : F → F → F) (zeroR : R).
Variables (LoadObj : string → string → tinyobj.parsed F)
  (parent_path : string → string).
Implicit Types (v : Vertex F) (vs : list (Vertex F)) (m : Model F R).
Implicit Types (mesh : tinyobj.mesh_t) (index : tinyobj.index_t).

Local Abbreviation parse filename := (LoadObj filename (parent_path filename)).

Lemma elem_of_corners (objShapes : list tinyobj.shape_t) mesh index :
  (mesh, index) ∈ corners objShapes →
  ∃ shape, shape ∈ objShapes ∧ mesh = tinyobj.mesh shape.
Proof.
  induction objShapes as [|shape objShapes IH].
  - intros Hin. by apply elem_of_nil in Hin.
  - change (corners (shape :: objShapes))
      with (map (fun index => (tinyobj.mesh shape, index))
              (tinyobj.indices (tinyobj.mesh shape)) ++ corners objShapes).
    rewrite elem_of_app. intros [Hin|Hin].
    + apply list_elem_of_fmap in Hin as (? & [= -> _] & _).
      exists shape. split; [apply list_elem_of_here|done].
    + destruct (IH Hin) as (shape' & ? & ->).
      exists shape'. split; [by apply list_elem_of_further|done].
Qed.

(** Every emitted index is the cast position of a stored vertex. *)
Lemma pool_inv_index_lt vs (g : Geometry F) k i :
  pool_inv vs g → indices g !! k = Some i →
  (i < N.of_nat (length (vertices g)))%N.
Proof.
  intros Hinv Hi.
  assert (k < length vs) as Hk.
  { rewrite <-(pool_indices_length _ _ Hinv). by eapply lookup_lt_Some. }
  apply lookup_lt_is_Some in Hk as [v Hv].
  destruct (pool_indices _ _ Hinv _ _ Hv) as (pos & Hpos & Hi').
  assert (i = to_uint32 pos) as -> by congruence.
  apply lookup_lt_Some in Hpos. pose proof (to_uint32_le pos). lia.
Qed.

(** The corner [k] of a returned model: its tuple is assembled with the
    counter at [k] and stored in some slot [pos] of the vertex buffer, and
    the index emitted for the corner is [pos] cast to [uint32_t]. *)
Lemma LoadModel_corner_stored filename m k mesh index :
  LoadModel zero one seven_tenths fsub zeroR LoadObj parent_path filename = Ok m →
  corners (tinyobj.objShapes (parse filename)) !! k = Some (mesh, index) →
  ∃ pos v,
    vertices_ m !! pos = Some v
    ∧ indices_ m !! k = Some (to_uint32 pos)
    ∧ LoadModel_vertex zero one fsub (tinyobj.objAttrib (parse filename)) mesh k index
      = Ok v.
Proof.
  intros Hload Hk.
  apply LoadModel_Ok in Hload as (_ & vs & Hvs & ->). simpl in *.
  destruct (corner_vertices_lookup _ _ _ _ _ _ _ Hvs) as [_ Hcs].
  destruct (Hcs _ _ _ Hk) as (v & Hv & Hasm).
  destruct (pool_indices _ _ (weld_all_inv vs) _ _ Hv) as (pos & Hpos & Hi).
  by exists pos, v.
Qed.

(** Every stored vertex is the tuple of some corner. *)
Lemma LoadModel_vertex_origin filename m v :
  LoadModel zero one seven_tenths fsub zeroR LoadObj parent_path filename = Ok m → v ∈ vertices_ m →
  ∃ k mesh index,
    corners (tinyobj.objShapes (parse filename)) !! k = Some (mesh, index)
    ∧ LoadModel_vertex zero one fsub (tinyobj.objAttrib (parse filename)) mesh k index = Ok v.
Proof.
  intros Hload Hin.
  apply LoadModel_Ok in Hload as (_ & vs & Hvs & ->). simpl in *.
  rewrite (pool_vertices _ _ (weld_all_inv vs)) in Hin.
  fold (first_occurrences vs) in Hin. rewrite elem_of_first_occurrences in Hin.
  apply list_elem_of_lookup_1 in Hin as [k Hk].
  destruct (corner_vertices_lookup _ _ _ _ _ _ _ Hvs) as [Hlen Hcs].
  assert (is_Some (corners (tinyobj.objShapes (parse filename)) !! k)) as [[mesh index] Hc].
  { apply lookup_lt_is_Some. rewrite <-Hlen. by eapply lookup_lt_Some. }
  destruct (Hcs _ _ _ Hc) as (v' & Hv' & Hasm).
  exists k, mesh, index. split; [done|]. simpl in Hasm. congruence.
Qed.

(** C2 (index validity): every value of the index buffer of a model
    returned by [LoadModel] is below the number of stored vertices; the
    index buffer holds one entry per corner of the parse, hence a multiple
    of three of them when the parse is triangulated. *)
Theorem LoadModel_index_validity filename m :
  LoadModel zero one seven_tenths fsub zeroR LoadObj parent_path filename = Ok m →
  Forall (fun i => (i < N.of_nat (length (vertices_ m)))%N) (indices_ m)
  ∧ length (indices_ m) = length (corners (tinyobj.objShapes (parse filename)))
  ∧ (triangulated (tinyobj.objShapes (parse filename)) →
     length (indices_ m) mod 3 = 0).
Proof.
  intros Hload.
  apply LoadModel_Ok in Hload as (_ & vs & Hvs & ->). simpl.
  pose proof (weld_all_inv vs) as Hinv.
  destruct (corner_vertices_lookup _ _ _ _ _ _ _ Hvs) as [Hlen _].
  assert (length (indices (weld_all vs (Geometry_init F))) =
          length (corners (tinyobj.objShapes (parse filename)))) as Hcount.
  { by rewrite (pool_indices_length _ _ Hinv). }
  split; [|split; [done|]].
  - apply Forall_lookup. intros k i Hi. by eapply pool_inv_index_lt.
  - intros Htri. rewrite Hcount. by apply triangulated_corners.
Qed.

(** X24 (materials of a returned model): the materials of a model
    returned by [LoadModel] are never empty: the single gray fallback
    (0.7, 0.7, 0.7, 1.0) when the parse has no material, otherwise one
    material per parsed material, in order, keeping its diffuse rgb with
    alpha 1.0.  No upper bound is applied to a material id: it is when the
    parser resolved every id ([-1] or the position of a parsed material)
    that the material index of every stored vertex of a returned model is
    below the number of materials. *)
Theorem LoadModel_material_invariant filename m :
  LoadModel zero one seven_tenths fsub zeroR LoadObj parent_path filename = Ok m →
  materials_ m ≠ []
  ∧ (tinyobj.objMaterials (parse filename) = [] →
     materials_ m =
       [mkMaterial (glm.Vec4 seven_tenths seven_tenths seven_tenths one) zeroR])
  ∧ (tinyobj.objMaterials (parse filename) ≠ [] →
     materials_ m =
       map (fun material =>
              mkMaterial
                (glm.Vec4 (tinyobj.diffuse material).1.1 (tinyobj.diffuse material).1.2
                   (tinyobj.diffuse material).2 one) zeroR)
         (tinyobj.objMaterials (parse filename)))
  ∧ (material_ids_resolved (parse filename) →
     Forall (fun v => (0 ≤ MaterialIndex v < Z.of_nat (length (materials_ m)))%Z)
       (vertices_ m)).
Proof.
  intros Hload.
  destruct (LoadModel_Ok _ _ _ _ _ _ _ _ _ Hload) as (_ & vs & Hvs & Hm).
  assert (materials_ m =
          LoadModel_materials one seven_tenths zeroR
            (tinyobj.objMaterials (parse filename))) as Hmat by (by rewrite Hm).
  split; [|split; [|split]].
  - intros Hnil. apply (f_equal length) in Hnil.
    rewrite Hmat, LoadModel_materials_length in Hnil. simpl in Hnil. lia.
  - intros Hnone. by rewrite Hmat, LoadModel_materials_eq, Hnone.
  - intros Hsome. rewrite Hmat, LoadModel_materials_eq.
    destruct (tinyobj.objMaterials (parse filename)) as [|mat mats]; [done|].
    apply map_ext. intros material. unfold LoadModel_material.
    by destruct (tinyobj.diffuse material) as [[d0 d1] d2].
  - intros Hids. apply Forall_forall. intros v Hin.
    destruct (LoadModel_vertex_origin _ _ _ Hload Hin) as (k & mesh & index & Hc & Hasm).
    apply LoadModel_vertex_MaterialIndex in Hasm as (materialId & Hid & ->).
    apply list_elem_of_lookup_2, elem_of_corners in Hc as (shape & Hshape & ->).
    unfold material_ids_resolved in Hids.
    rewrite Forall_forall in Hids. specialize (Hids _ Hshape).
    rewrite Forall_forall in Hids. apply list_elem_of_lookup_2 in Hid.
    specialize (Hids _ Hid).
    rewrite Hmat, LoadModel_materials_length. lia.
Qed.
(** C1 (vertex deduplication): in a run of [LoadModel] that returns a
    model, the first occurrence of an attribute tuple appends it to the
    vertex sequence, where it stays, and the index emitted is the new
    length minus one, cast to [uint32_t] (so the new length minus one
    itself when the vertex count fits the index type); a repeat of the
    tuple appends nothing and gets the index recorded for it earlier.  The
    vertex sequence holds the tuples in the order of their first
    occurrence, there are as many stored vertices as distinct tuples among
    the corners, and no two positions hold equal vertices. *)
Theorem LoadModel_dedup filename m :
  LoadModel zero one seven_tenths fsub zeroR LoadObj parent_path filename = Ok m →
  ∃ vs,
    corner_vertices zero one fsub (tinyobj.objAttrib (parse filename))
      (corners (tinyobj.objShapes (parse filename))) 0 = Ok vs
    ∧ (∀ k v, vs !! k = Some v →
         let before := weld_all (take k vs) (Geometry_init F) in
         let after := weld_all (take (S k) vs) (Geometry_init F) in
         vertices after `prefix_of` vertices_ m
         ∧ (v ∉ take k vs →
              vertices after = vertices before ++ [v]
              ∧ vertices_ m !! (length (vertices after) - 1) = Some v
              ∧ indices_ m !! k = Some (to_uint32 (length (vertices after) - 1))
              ∧ (fits_uint32 (vertices_ m) →
                 indices_ m !! k = Some (N.of_nat (length (vertices after) - 1))))
         ∧ (v ∈ take k vs →
              vertices after = vertices before
              ∧ ∀ j, j < k → vs !! j = Some v → indices_ m !! k = indices_ m !! j))
    ∧ vertices_ m = first_occurrences vs
    ∧ length (vertices_ m) = size (list_to_set vs : gset (Vertex F))
    ∧ (∀ i j v, vertices_ m !! i = Some v → vertices_ m !! j = Some v → i = j).
Proof.
  intros Hload. apply LoadModel_Ok in Hload as (_ & vs & Hvs & ->).
  exists vs. split; [done|]. simpl.
  pose proof (weld_all_inv vs) as Hinv.
  pose proof (pool_vertices _ _ Hinv) as Hfinal. fold (first_occurrences vs) in Hfinal.
  assert (NoDup (vertices (weld_all vs (Geometry_init F)))) as Hnodup.
  { rewrite Hfinal. apply NoDup_first_occurrences. }
  split; [|split; [done|split]].
  - intros k v Hk.
    pose proof (pool_vertices _ _ (weld_all_inv (take k vs))) as Hbefore.
    pose proof (pool_vertices _ _ (weld_all_inv (take (S k) vs))) as Hafter.
    fold (first_occurrences (take k vs)) in Hbefore.
    fold (first_occurrences (take (S k) vs)) in Hafter.
    rewrite Hbefore, Hafter.
    assert (first_occurrences (take (S k) vs) `prefix_of` first_occurrences vs)
      as [tail Htail].
    { destruct (first_occurrences_prefix (take (S k) vs) (drop (S k) vs)) as [tail Ht].
      rewrite take_drop in Ht. by exists tail. }
    split; [exists tail; congruence|].
    rewrite (take_S_r _ _ _ Hk), first_occurrences_snoc in *.
    split; intros Hin; case_decide; try done.
    + split; [done|].
      rewrite length_app, Nat.add_sub. simpl.
      assert (vertices (weld_all vs (Geometry_init F))
                !! length (first_occurrences (take k vs)) = Some v) as Hslot.
      { rewrite Hfinal, Htail, <-app_assoc.
        by rewrite lookup_app_r, Nat.sub_diag by lia. }
      split; [done|].
      destruct (pool_indices _ _ Hinv _ _ Hk) as (pos & Hpos & ->).
      rewrite (NoDup_lookup _ _ _ _ Hnodup Hpos Hslot).
      split; [done|]. intros Hfits. f_equal. apply to_uint32_small.
      apply lookup_lt_Some in Hslot. unfold fits_uint32 in Hfits. lia.
    + split; [done|]. intros j _ Hj.
      destruct (pool_indices _ _ Hinv _ _ Hk) as (pos & Hpos & ->).
      destruct (pool_indices _ _ Hinv _ _ Hj) as (pos' & Hpos' & ->).
      by rewrite (NoDup_lookup _ _ _ _ Hnodup Hpos Hpos').
  - rewrite Hfinal. apply size_first_occurrences.
  - intros i j v Hi Hj. by eapply NoDup_lookup.
Qed.

(** C4 (per-corner material): one counter runs over the corners of all
    shapes in order.  The run ends with the counter at the number of
    corners visited, and the corner at overall position [k], in whichever
    shape it lies, is stored with the material index
    [max(0, material_ids[k / 3])], read from its own mesh's material ids;
    the stored material index is never negative. *)
Theorem LoadModel_corner_material filename m k mesh index :
  LoadModel zero one seven_tenths fsub zeroR LoadObj parent_path filename = Ok m →
  corners (tinyobj.objShapes (parse filename)) !! k = Some (mesh, index) →
  (∃ g, LoadModel_geometry zero one fsub (tinyobj.objAttrib (parse filename))
          (tinyobj.objShapes (parse filename)) = Ok g
        ∧ faceId g = length (corners (tinyobj.objShapes (parse filename))))
  ∧ ∃ materialId pos v,
      tinyobj.material_ids mesh !! (k / 3) = Some materialId
      ∧ vertices_ m !! pos = Some v
      ∧ indices_ m !! k = Some (to_uint32 pos)
      ∧ MaterialIndex v = Z.max 0 materialId
      ∧ (0 ≤ MaterialIndex v)%Z.
Proof.
  intros Hload Hk. split.
  - apply LoadModel_Ok in Hload as (_ & vs & Hvs & _).
    exists (weld_all vs (Geometry_init F)). split.
    + unfold LoadModel_geometry.
      rewrite LoadModel_shapes_corners, LoadModel_corners_run. simpl.
      by rewrite Hvs.
    + rewrite weld_all_faceId. simpl.
      by destruct (corner_vertices_lookup _ _ _ _ _ _ _ Hvs) as [-> _].
  - destruct (LoadModel_corner_stored _ _ _ _ _ Hload Hk)
      as (pos & v & Hv & Hi & Hasm).
    apply LoadModel_vertex_MaterialIndex in Hasm as (materialId & Hid & Hmat).
    exists materialId, pos, v. repeat split; try done. lia.
Qed.

(** C5 (UV flip): the vertex stored for a corner has, when the parse has
    texture coordinates, the corner's first source component [s] and
    [1 - t] for its second source component [t]; when it has none, the
    zero texture coordinate. *)
Theorem LoadModel_uv_flip filename m k mesh index :
  LoadModel zero one seven_tenths fsub zeroR LoadObj parent_path filename = Ok m →
  corners (tinyobj.objShapes (parse filename)) !! k = Some (mesh, index) →
  ∃ pos vertex,
    vertices_ m !! pos = Some vertex
    ∧ indices_ m !! k = Some (to_uint32 pos)
    ∧ (tinyobj.texcoords (tinyobj.objAttrib (parse filename)) = [] →
       TexCoord vertex = glm.Vec2 zero zero)
    ∧ (tinyobj.texcoords (tinyobj.objAttrib (parse filename)) ≠ [] →
       ∃ s t : F,
         tinyobj.texcoords (tinyobj.objAttrib (parse filename))
           !! Z.to_nat (2 * tinyobj.texcoord_index index + 0) = Some s
         ∧ tinyobj.texcoords (tinyobj.objAttrib (parse filename))
           !! Z.to_nat (2 * tinyobj.texcoord_index index + 1) = Some t
         ∧ glm.x2 (TexCoord vertex) = s
         ∧ glm.y2 (TexCoord vertex) = fsub one t).
Proof.
  intros Hload Hk.
  destruct (LoadModel_corner_stored _ _ _ _ _ Hload Hk)
    as (pos & vertex & Hvertex & Hi & Hasm).
  apply LoadModel_vertex_TexCoord in Hasm.
  exists pos, vertex. split; [done|]. split; [done|].
  destruct (tinyobj.texcoords _) as [|t0 ts].
  - by split.
  - split; [done|]. intros _. destruct Hasm as (s & t & Hs & Ht & ->).
    by exists s, t.
Qed.
End LoadModelClaims.

(** ** CreateSphere *)

Section CreateSphereClaims.
Context {F R : Type}.
Variables (fadd : F → F → F) (Icosphere_new : F → Z → bool → Icosphere F).
Implicit Types (center : glm.vec3 F) (icosphere : Icosphere F).
Implicit Types (vertex : Vertex F) (m : Model F R).


Lemma CreateSphere_vertex_Ok center icosphere i vertex :
  CreateSphere_vertex fadd center icosphere i = Ok vertex →
  ∃ px py pz nx ny nz s t,
    Vertices icosphere !! (i * 3 + 0) = Some px
    ∧ Vertices icosphere !! (i * 3 + 1) = Some py
    ∧ Vertices icosphere !! (i * 3 + 2) = Some pz
    ∧ Normals icosphere !! (i * 3 + 0) = Some nx
    ∧ Normals icosphere !! (i * 3 + 1) = Some ny
    ∧ Normals icosphere !! (i * 3 + 2) = Some nz
    ∧ TexCoords icosphere !! (i * 2 + 0) = Some s
    ∧ TexCoords icosphere !! (i * 2 + 1) = Some t
    ∧ vertex = mkVertex (vec3_add fadd (glm.Vec3 px py pz) center)
                 (glm.Vec3 nx ny nz) (glm.Vec2 s t) 0.
Proof.
  unfold CreateSphere_vertex. intros Hv.
  apply bind_Ok in Hv as (px & Hpx & Hv). apply bind_Ok in Hv as (py & Hpy & Hv).
  apply bind_Ok in Hv as (pz & Hpz & Hv). apply bind_Ok in Hv as (nx & Hnx & Hv).
  apply bind_Ok in Hv as (ny & Hny & Hv). apply bind_Ok in Hv as (nz & Hnz & Hv).
  apply bind_Ok in Hv as (s & Hs & Hv). apply bind_Ok in Hv as (t & Ht & [= <-]).
  rewrite subscript_Ok in *. by exists px, py, pz, nx, ny, nz, s, t.
Qed.

(** The loop appends one vertex per remaining point, in order. *)
Lemma CreateSphere_loop_Ok center icosphere remaining i acc vertices :
  CreateSphere_loop fadd center icosphere remaining i acc = Ok vertices →
  ∃ tail,
    vertices = acc ++ tail
    ∧ length tail = remaining
    ∧ ∀ j, j < remaining →
        ∃ vertex, tail !! j = Some vertex
                  ∧ CreateSphere_vertex fadd center icosphere (i + j) = Ok vertex.
Proof.
  revert i acc. induction remaining as [|remaining IH]; intros i acc; simpl.
  - intros [= <-]. exists []. rewrite app_nil_r. split; [done|]. split; [done|].
    intros j Hj. lia.
  - intros Hrun. apply bind_Ok in Hrun as (vertex & Hvertex & Hrun).
    destruct (IH _ _ Hrun) as (tail & -> & Hlen & Hslots).
    exists (vertex :: tail). rewrite <-app_assoc. split; [done|].
    split; [simpl; lia|]. intros [|j] Hj.
    + exists vertex. by rewrite Nat.add_0_r.
    + destruct (Hslots j ltac:(lia)) as (vertex' & Hslot & Hasm).
      exists vertex'. split; [done|].
      by replace (i + S j) with (S i + j) by lia.
Qed.

(** When the generator's arrays hold [VertexCount] points, every read is
    in range and a model is returned. *)
Lemma CreateSphere_defined center radius subdivision (material : Material F R)
    isProcedural :
  let icosphere := Icosphere_new radius subdivision true in
  VertexCount icosphere * 3 ≤ length (Vertices icosphere) →
  VertexCount icosphere * 3 ≤ length (Normals icosphere) →
  VertexCount icosphere * 2 ≤ length (TexCoords icosphere) →
  ∃ m, CreateSphere fadd Icosphere_new center radius subdivision material isProcedural = Ok m.
Proof.
  intros icosphere Hv Hn Ht. unfold CreateSphere. fold icosphere.
  assert (∀ remaining i acc, i + remaining = VertexCount icosphere →
            ∃ vertices,
              CreateSphere_loop fadd center icosphere remaining i acc = Ok vertices)
    as Hloop.
  { induction remaining as [|remaining IH]; intros i acc Hi; simpl; [by eexists|].
    unfold CreateSphere_vertex, subscript.
    destruct (lookup_lt_is_Some_2 (Vertices icosphere) (i * 3 + 0)) as [? ->]; [lia|].
    destruct (lookup_lt_is_Some_2 (Vertices icosphere) (i * 3 + 1)) as [? ->]; [lia|].
    destruct (lookup_lt_is_Some_2 (Vertices icosphere) (i * 3 + 2)) as [? ->]; [lia|].
    destruct (lookup_lt_is_Some_2 (Normals icosphere) (i * 3 + 0)) as [? ->]; [lia|].
    destruct (lookup_lt_is_Some_2 (Normals icosphere) (i * 3 + 1)) as [? ->]; [lia|].
    destruct (lookup_lt_is_Some_2 (Normals icosphere) (i * 3 + 2)) as [? ->]; [lia|].
    destruct (lookup_lt_is_Some_2 (TexCoords icosphere) (i * 2 + 0)) as [? ->]; [lia|].
    destruct (lookup_lt_is_Some_2 (TexCoords icosphere) (i * 2 + 1)) as [? ->]; [lia|].
    rewrite !bind_ret. apply IH. lia. }
  destruct (Hloop (VertexCount icosphere) 0 [] eq_refl) as [vertices ->].
  by eexists.
Qed.

(** C7 (CreateSphere contract): a model returned by [CreateSphere] has one
    vertex per generated point, in the generator's order and without
    welding; each position is the generated position plus the center,
    component by component;
    every material index is 0; the materials are the one supplied; the
    index buffer is the generator's; the analytic sphere (center, radius)
    is attached exactly when the flag is set. *)
Theorem CreateSphere_contract center radius subdivision material isProcedural m :
  CreateSphere fadd Icosphere_new center radius subdivision material isProcedural = Ok m →
  let icosphere := Icosphere_new radius subdivision true in
  length (vertices_ m) = VertexCount icosphere
  ∧ (∀ i, i < VertexCount icosphere →
       ∃ vertex px py pz,
         vertices_ m !! i = Some vertex
         ∧ Vertices icosphere !! (i * 3 + 0) = Some px
         ∧ Vertices icosphere !! (i * 3 + 1) = Some py
         ∧ Vertices icosphere !! (i * 3 + 2) = Some pz
         ∧ Position vertex
           = glm.Vec3 (fadd px (glm.x3 center)) (fadd py (glm.y3 center))
               (fadd pz (glm.z3 center))
         ∧ MaterialIndex vertex = 0%Z)
  ∧ materials_ m = [material]
  ∧ indices_ m = Indices icosphere
  ∧ procedural_ m = (if isProcedural then Some (Sphere center radius) else None).
Proof.
  intros Hrun icosphere. unfold CreateSphere in Hrun. fold icosphere in Hrun.
  apply bind_Ok in Hrun as (vertices & Hloop & [= <-]). simpl.
  apply CreateSphere_loop_Ok in Hloop as (tail & -> & Hlen & Hslots). simpl in *.
  split; [done|]. split; [|done].
  intros i Hi. destruct (Hslots i Hi) as (vertex & Hslot & Hasm).
  apply CreateSphere_vertex_Ok in Hasm
    as (px & py & pz & nx & ny & nz & s & t & Hpx & Hpy & Hpz & _ & _ & _ & _ & _ & ->).
  by exists (mkVertex (vec3_add fadd (glm.Vec3 px py pz) center)
            (glm.Vec3 nx ny nz) (glm.Vec2 s t) 0), px, py, pz.
Qed.

(** C10 (no V-flip in CreateSphere): the texture coordinate stored for
    generated point [i] is the generator's pair for that point, second
    component included, unchanged. *)
Theorem CreateSphere_texcoord_verbatim center radius subdivision material
    isProcedural m i :
  CreateSphere fadd Icosphere_new center radius subdivision material isProcedural = Ok m →
  i < VertexCount (Icosphere_new radius subdivision true) →
  ∃ vertex s t,
    vertices_ m !! i = Some vertex
    ∧ TexCoords (Icosphere_new radius subdivision true) !! (i * 2 + 0) = Some s
    ∧ TexCoords (Icosphere_new radius subdivision true) !! (i * 2 + 1) = Some t
    ∧ TexCoord vertex = glm.Vec2 s t.
Proof.
  intros Hrun Hi. unfold CreateSphere in Hrun.
  apply bind_Ok in Hrun as (vertices & Hloop & [= <-]). simpl.
  apply CreateSphere_loop_Ok in Hloop as (tail & -> & _ & Hslots). simpl in *.
  destruct (Hslots i Hi) as (vertex & Hslot & Hasm).
  apply CreateSphere_vertex_Ok in Hasm
    as (px & py & pz & nx & ny & nz & s & t & _ & _ & _ & _ & _ & _ & Hs & Ht & ->).
  by exists (mkVertex (vec3_add fadd (glm.Vec3 px py pz) center)
            (glm.Vec3 nx ny nz) (glm.Vec2 s t) 0), s, t.
Qed.
End CreateSphereClaims.

(** ** SetMaterial *)

Section SetMaterialClaims.
Context {F R : Type}.
Implicit Types (material : Material F R) (this : Model F R).

(** C6 (SetMaterial guard): on a model with more than one material the
    call throws and the model is left as it was; on a model with exactly
    one material the call returns normally and that material is replaced
    by the argument, nothing else being changed. *)
Theorem SetMaterial_guard material this :
  (1 < length (materials_ this) →
   SetMaterial material this =
     (Raised (runtime_error "cannot change material on a multi-material model"%string),
      this))
  ∧ (length (materials_ this) = 1 →
     SetMaterial material this =
       (Ok tt,
        mkModel (vertices_ this) (indices_ this) [material] (procedural_ this))).
Proof.
  unfold SetMaterial. split; intros Hlen; case_decide; try lia; [done|].
  destruct (materials_ this) as [|material0 [|? ?]]; simpl in *; try lia. done.
Qed.
End SetMaterialClaims.

(** ** Transform *)

Section TransformClaims.
Context {F R mat4 : Type}.
Variables (zero one : F) (mat4_mul_vec4 : mat4 → glm.vec4 F → glm.vec4 F)
  (inverseTranspose : mat4 → mat4).
Implicit Types (transform : mat4) (this : Model F R) (vertices : list (Vertex F)).


(** With [remaining] slots left from slot [i] on, the loop has the slots
    before [i] as they are and rewrites each later slot once. *)
Lemma Transform_loop_map transform transformIT remaining i vertices :
  i + remaining = length vertices →
  Transform_loop zero one mat4_mul_vec4 transform transformIT remaining i vertices =
  take i vertices ++ map (Transform_vertex zero one mat4_mul_vec4 transform transformIT) (drop i vertices).
Proof.
  revert i vertices. induction remaining as [|remaining IH]; intros i vertices Hi; simpl.
  - rewrite take_ge, drop_ge by lia. by rewrite app_nil_r.
  - destruct (lookup_lt_is_Some_2 vertices i) as [vertex Hvertex]; [lia|].
    rewrite Hvertex, IH by (rewrite length_insert; lia).
    rewrite (take_S_r _ _ (Transform_vertex zero one mat4_mul_vec4 transform transformIT vertex))
      by (apply list_lookup_insert_eq; lia).
    rewrite take_insert_ge, drop_insert_lt by lia.
    rewrite (drop_S _ _ _ Hvertex). simpl. by rewrite <-app_assoc.
Qed.

Lemma Transform_vertices transform this :
  vertices_ (Transform zero one mat4_mul_vec4 inverseTranspose transform this) =
  map (Transform_vertex zero one mat4_mul_vec4 transform (inverseTranspose transform)) (vertices_ this).
Proof.
  unfold Transform. simpl. by rewrite Transform_loop_map by done.
Qed.

(** C8 (Transform semantics): slot by slot, in vertex order, the new
    position is the first three components of [M * (x, y, z, 1)] for the
    old position [(x, y, z)], and the new normal the first three components
    of [inverseTranspose(M) * (x, y, z, 0)] for the old normal
    [(x, y, z)]. *)
Theorem Transform_semantics transform this :
  map Position (vertices_ (Transform zero one mat4_mul_vec4 inverseTranspose transform this)) =
    map (fun vertex =>
           glm.Vec3
             (glm.x4 (mat4_mul_vec4 transform
                        (glm.Vec4 (glm.x3 (Position vertex)) (glm.y3 (Position vertex))
                           (glm.z3 (Position vertex)) one)))
             (glm.y4 (mat4_mul_vec4 transform
                        (glm.Vec4 (glm.x3 (Position vertex)) (glm.y3 (Position vertex))
                           (glm.z3 (Position vertex)) one)))
             (glm.z4 (mat4_mul_vec4 transform
                        (glm.Vec4 (glm.x3 (Position vertex)) (glm.y3 (Position vertex))
                           (glm.z3 (Position vertex)) one))))
      (vertices_ this)
  ∧ map Normal (vertices_ (Transform zero one mat4_mul_vec4 inverseTranspose transform this)) =
      map (fun vertex =>
             glm.Vec3
               (glm.x4 (mat4_mul_vec4 (inverseTranspose transform)
                          (glm.Vec4 (glm.x3 (Normal vertex)) (glm.y3 (Normal vertex))
                             (glm.z3 (Normal vertex)) zero)))
               (glm.y4 (mat4_mul_vec4 (inverseTranspose transform)
                          (glm.Vec4 (glm.x3 (Normal vertex)) (glm.y3 (Normal vertex))
                             (glm.z3 (Normal vertex)) zero)))
               (glm.z4 (mat4_mul_vec4 (inverseTranspose transform)
                          (glm.Vec4 (glm.x3 (Normal vertex)) (glm.y3 (Normal vertex))
                             (glm.z3 (Normal vertex)) zero))))
        (vertices_ this).
Proof.
  rewrite Transform_vertices, !map_map. split; apply map_ext; intros vertex; reflexivity.
Qed.

(** C9 (Transform frame): [Transform] leaves the index buffer, the
    materials, the analytic-shape descriptor, the number of vertices and,
    slot by slot, every texture coordinate and material index as they
    were. *)
Theorem Transform_frame transform this :
  indices_ (Transform zero one mat4_mul_vec4 inverseTranspose transform this) = indices_ this
  ∧ materials_ (Transform zero one mat4_mul_vec4 inverseTranspose transform this) = materials_ this
  ∧ procedural_ (Transform zero one mat4_mul_vec4 inverseTranspose transform this) = procedural_ this
  ∧ length (vertices_ (Transform zero one mat4_mul_vec4 inverseTranspose transform this)) = length (vertices_ this)
  ∧ map TexCoord (vertices_ (Transform zero one mat4_mul_vec4 inverseTranspose transform this)) = map TexCoord (vertices_ this)
  ∧ map MaterialIndex (vertices_ (Transform zero one mat4_mul_vec4 inverseTranspose transform this)) =
      map MaterialIndex (vertices_ this).
Proof.
  rewrite Transform_vertices. rewrite !map_map, length_map. done.
Qed.
End TransformClaims.

(** * The claims at the sample inputs *)

Example LoadModel_square : Binary32.LoadModel "square.obj" = Ok Binary32.square_model.
Proof. vm_compute. reflexivity. Qed.

Example LoadModel_plain : Binary32.LoadModel "plain.obj" = Ok Binary32.plain_model.
Proof. vm_compute. reflexivity. Qed.

Example LoadModel_split : Binary32.LoadModel "split.obj" = Ok Binary32.split_model.
Proof. vm_compute. reflexivity. Qed.

(** With one material id per face in each of two shapes, the counter,
    which is not reset, reads entry 1 of the second mesh's single id. *)
Example LoadModel_pair : Binary32.LoadModel "pair.obj" = Undefined.
Proof. vm_compute. reflexivity. Qed.

Example LoadModel_missing :
  Binary32.LoadModel "missing.obj" =
  Raised (runtime_error
            ("failed to load model 'missing.obj':" ++ newline ++ "cannot open file")%string).
Proof. vm_compute. reflexivity. Qed.

Example CreateSphere_sample isProcedural :
  Binary32.CreateSphere Binary32.center Binary32.two 0 Binary32.gray isProcedural =
  Ok (Binary32.sphere_model isProcedural).
Proof. by destruct isProcedural. Qed.

Example one_minus_quarter :
  Binary32.sub Binary32.one Binary32.quarter = Binary32.three_quarters.
Proof. vm_compute. reflexivity. Qed.

(** [square.obj]: six corners, four distinct tuples.  Corner 3 repeats
    corner 0 and gets its index; corner 5 is the first with its tuple and
    gets the index 3, the length of the pool after appending minus one. *)
Lemma LoadModel_dedup_witness :
  ∃ vs,
    corner_vertices Binary32.zero Binary32.one Binary32.sub Binary32.square_attrib
      (corners (tinyobj.objShapes Binary32.square_obj)) 0 = Ok vs
    ∧ vertices_ Binary32.square_model = first_occurrences vs
    ∧ length (vertices_ Binary32.square_model)
      = size (list_to_set vs : gset (Vertex spec_float))
    ∧ indices_ Binary32.square_model !! 3 = indices_ Binary32.square_model !! 0
    ∧ indices_ Binary32.square_model !! 5
      = Some (N.of_nat
                (length (vertices (weld_all (take 6 vs) (Geometry_init spec_float))) - 1)).
Proof.
  destruct (LoadModel_dedup Binary32.zero Binary32.one Binary32.seven_tenths
              Binary32.sub tt Binary32.LoadObj Binary32.parent_path
              "square.obj" Binary32.square_model)
    as (vs & Hvs & Hsteps & Hfirst & Hsize & _).
  - vm_compute. reflexivity.
  - exists vs. split; [exact Hvs|]. split; [exact Hfirst|]. split; [exact Hsize|].
    vm_compute in Hvs. injection Hvs as <-. split.
    + destruct (Hsteps 3 _ eq_refl) as (_ & _ & Hrepeat).
      apply Hrepeat; [compute_done|lia|reflexivity].
    + destruct (Hsteps 5 _ eq_refl) as (_ & Hnew & _).
      apply Hnew; [compute_done|]. unfold fits_uint32. simpl. lia.
Defined.

Lemma LoadModel_index_validity_witness :
  Forall (fun i => (i < N.of_nat (length (vertices_ Binary32.square_model)))%N)
    (indices_ Binary32.square_model)
  ∧ length (indices_ Binary32.square_model) mod 3 = 0.
Proof.
  destruct (LoadModel_index_validity Binary32.zero Binary32.one Binary32.seven_tenths
              Binary32.sub tt Binary32.LoadObj Binary32.parent_path
              "square.obj" Binary32.square_model)
    as (Hlt & _ & Hmul).
  - vm_compute. reflexivity.
  - split; [exact Hlt|]. apply Hmul. repeat constructor.
Defined.

(** [plain.obj] has no material: the gray fallback, and every vertex on
    material 0. *)
Lemma LoadModel_material_invariant_witness :
  materials_ Binary32.plain_model = [Binary32.gray]
  ∧ Forall (fun v => (0 ≤ MaterialIndex v
                      < Z.of_nat (length (materials_ Binary32.plain_model)))%Z)
      (vertices_ Binary32.plain_model).
Proof.
  destruct (LoadModel_material_invariant Binary32.zero Binary32.one
              Binary32.seven_tenths Binary32.sub tt Binary32.LoadObj
              Binary32.parent_path "plain.obj" Binary32.plain_model)
    as (_ & Hgray & _ & Hlt).
  - vm_compute. reflexivity.
  - split; [by apply Hgray|]. apply Hlt.
    repeat constructor.
Defined.

(** [split.obj]: the first corner of the second shape is corner 3 overall
    and takes entry [3 / 3 = 1] of that shape's material ids. *)
Lemma LoadModel_corner_material_witness :
  ∃ materialId pos v,
    [0%Z; 1%Z] !! (3 / 3) = Some materialId
    ∧ vertices_ Binary32.split_model !! pos = Some v
    ∧ indices_ Binary32.split_model !! 3 = Some (to_uint32 pos)
    ∧ MaterialIndex v = Z.max 0 materialId
    ∧ (0 ≤ MaterialIndex v)%Z.
Proof.
  refine (proj2 (LoadModel_corner_material Binary32.zero Binary32.one
                   Binary32.seven_tenths Binary32.sub tt Binary32.LoadObj
                   Binary32.parent_path "split.obj" Binary32.split_model 3
                   (tinyobj.Mesh
                      [Binary32.corner 0; Binary32.corner 2; Binary32.corner 3]
                      [0%Z; 1%Z])
                   (Binary32.corner 0) _ _)).
  - vm_compute. reflexivity.
  - reflexivity.
Defined.

(** [square.obj], corner 1: source texture coordinate [(1, 1/4)]. *)
Lemma LoadModel_uv_flip_witness :
  ∃ pos vertex,
    vertices_ Binary32.square_model !! pos = Some vertex
    ∧ indices_ Binary32.square_model !! 1 = Some (to_uint32 pos)
    ∧ glm.y2 (TexCoord vertex) = Binary32.sub Binary32.one Binary32.quarter.
Proof.
  destruct (LoadModel_uv_flip Binary32.zero Binary32.one Binary32.seven_tenths
              Binary32.sub tt Binary32.LoadObj Binary32.parent_path
              "square.obj" Binary32.square_model 1
              (tinyobj.Mesh
                 [Binary32.corner 0; Binary32.corner 1; Binary32.corner 2;
                  Binary32.corner 0; Binary32.corner 2; Binary32.corner 3]
                 [1%Z; 1%Z])
              (Binary32.corner 1))
    as (pos & vertex & Hvertex & Hi & _ & Hflip).
  - vm_compute. reflexivity.
  - reflexivity.
  - exists pos, vertex. split; [exact Hvertex|]. split; [exact Hi|].
    destruct Hflip as (s & t & _ & Ht & _ & Hy); [discriminate|].
    injection Ht as <-. exact Hy.
Defined.

Lemma SetMaterial_guard_witness :
  SetMaterial Binary32.gray Binary32.square_model =
    (Raised (runtime_error "cannot change material on a multi-material model"%string),
     Binary32.square_model)
  ∧ SetMaterial (mkMaterial (glm.Vec4 Binary32.one Binary32.zero Binary32.zero Binary32.one) tt)
      Binary32.plain_model =
    (Ok tt,
     mkModel (vertices_ Binary32.plain_model) (indices_ Binary32.plain_model)
       [mkMaterial (glm.Vec4 Binary32.one Binary32.zero Binary32.zero Binary32.one) tt]
       None).
Proof.
  split.
  - apply (proj1 (SetMaterial_guard Binary32.gray Binary32.square_model)).
    simpl. lia.
  - apply (proj2 (SetMaterial_guard
                    (mkMaterial
                       (glm.Vec4 Binary32.one Binary32.zero Binary32.zero Binary32.one) tt)
                    Binary32.plain_model)).
    reflexivity.
Defined.

(** Three generated points of radius 2, two of them equal, moved by the
    center [(1, 1, 1)]: three vertices all the same, the first at
    [(2 + 1, 0 + 1, 0 + 1) = (3, 1, 1)]. *)
Lemma CreateSphere_contract_witness :
  length (vertices_ (Binary32.sphere_model true)) = 3
  ∧ (∃ vertex,
       vertices_ (Binary32.sphere_model true) !! 0 = Some vertex
       ∧ Position vertex = glm.Vec3 Binary32.three Binary32.one Binary32.one
       ∧ MaterialIndex vertex = 0%Z)
  ∧ materials_ (Binary32.sphere_model true) = [Binary32.gray]
  ∧ indices_ (Binary32.sphere_model true) = [0%N; 1%N; 2%N]
  ∧ procedural_ (Binary32.sphere_model true)
    = Some (Sphere Binary32.center Binary32.two).
Proof.
  destruct (CreateSphere_contract Binary32.add Binary32.Icosphere_new
              Binary32.center Binary32.two 0 Binary32.gray true
              (Binary32.sphere_model true))
    as (Hlen & Hpoints & Hmat & Hidx & Hproc).
  - vm_compute. reflexivity.
  - split; [exact Hlen|]. split; [|split; [exact Hmat|split; [exact Hidx|exact Hproc]]].
    destruct (Hpoints 0) as (vertex & px & py & pz & Hvertex & Hpx & Hpy & Hpz & Hp & Hmi).
    { simpl. lia. }
    exists vertex. split; [exact Hvertex|]. split; [|exact Hmi].
    injection Hpx as <-. injection Hpy as <-. injection Hpz as <-.
    rewrite Hp. vm_compute. reflexivity.
Defined.

(** Point 0 of the generator has texture coordinate [(0, 1/4)]. *)
Lemma CreateSphere_texcoord_verbatim_witness :
  ∃ vertex s t,
    vertices_ (Binary32.sphere_model false) !! 0 = Some vertex
    ∧ [Binary32.zero; Binary32.quarter; Binary32.zero; Binary32.quarter;
       Binary32.one; Binary32.one] !! (0 * 2 + 0) = Some s
    ∧ [Binary32.zero; Binary32.quarter; Binary32.zero; Binary32.quarter;
       Binary32.one; Binary32.one] !! (0 * 2 + 1) = Some t
    ∧ TexCoord vertex = glm.Vec2 s t.
Proof.
  apply (CreateSphere_texcoord_verbatim Binary32.add Binary32.Icosphere_new
           Binary32.center Binary32.two 0 Binary32.gray false
           (Binary32.sphere_model false) 0).
  - vm_compute. reflexivity.
  - simpl. lia.
Defined.

(** * Further properties *)

(** ** The vertex hash *)

Lemma size_t_wrap_range (z : Z) : (0 ≤ size_t_wrap z < 2 ^ 64)%Z.
Proof. unfold size_t_wrap. apply Z.mod_pos_bound. lia. Qed.

Lemma lxor_range (n a b : Z) :
  (0 ≤ n)%Z → (0 ≤ a < 2 ^ n)%Z → (0 ≤ b < 2 ^ n)%Z → (0 ≤ Z.lxor a b < 2 ^ n)%Z.
Proof.
  intros Hn Ha Hb.
  assert (0 ≤ Z.lxor a b)%Z as Hnonneg by (apply Z.lxor_nonneg; lia).
  split; [done|].
  destruct (decide (Z.lxor a b = 0%Z)) as [->|Hne]; [apply Z.pow_pos_nonneg; lia|].
  assert (0 < n)%Z as Hpos.
  { destruct (decide (n = 0%Z)) as [->|?]; [|lia].
    assert (a = 0%Z) as -> by lia. assert (b = 0%Z) as -> by lia. done. }
  apply Z.log2_lt_pow2; [lia|].
  eapply Z.le_lt_trans; [apply Z.log2_lxor; lia|].
  apply Z.max_lub_lt.
  - destruct (decide (a = 0%Z)) as [->|?]; [simpl; lia|]. apply Z.log2_lt_pow2; lia.
  - destruct (decide (b = 0%Z)) as [->|?]; [simpl; lia|]. apply Z.log2_lt_pow2; lia.
Qed.

Lemma lxor_cancel_l (h x y : Z) : Z.lxor h x = Z.lxor h y → x = y.
Proof.
  intros Heq. apply (f_equal (Z.lxor h)) in Heq.
  by rewrite <-!Z.lxor_assoc, Z.lxor_nilpotent, !Z.lxor_0_l in Heq.
Qed.

Lemma Combine_range (hash0 hash1 : Z) :
  (0 ≤ hash0 < 2 ^ 64)%Z → (0 ≤ Combine hash0 hash1 < 2 ^ 64)%Z.
Proof.
  intros H0. unfold Combine. apply lxor_range; [lia|done|apply size_t_wrap_range].
Qed.

(** X22: for a fixed first argument, [Combine] sends distinct second
    arguments (two [size_t] values) to distinct results: folding a further
    field into a hash never merges two hashes that differed. *)
Theorem Combine_separates (hash0 a b : Z) :
  (0 ≤ a < 2 ^ 64)%Z → (0 ≤ b < 2 ^ 64)%Z → a ≠ b →
  Combine hash0 a ≠ Combine hash0 b.
Proof.
  intros Ha Hb Hne Heq. apply Hne. unfold Combine in Heq.
  apply lxor_cancel_l in Heq. unfold size_t_wrap in Heq.
  rewrite !Z.add_mod_idemp_l in Heq by lia.
  rewrite <-!Z.add_assoc, !Z.add_mod_idemp_l in Heq by lia.
  match type of Heq with
  | (?x mod _ = ?y mod _)%Z =>
      assert ((x - y) mod 2 ^ 64 = 0)%Z as Hdiff
        by (by rewrite Zminus_mod, Heq, Z.sub_diag);
      replace (x - y)%Z with (a - b)%Z in Hdiff by lia
  end.
  apply Z.mod_divide in Hdiff as [q Hq]; lia.
Qed.

Lemma Combine_separates_witness : Combine 7 1 ≠ Combine 7 2.
Proof. apply (Combine_separates 7 1 2); lia. Defined.

(** X23: two vertices with the same position, normal and texture
    coordinate whose material indices hash differently have different
    hashes (the field hashes being [size_t] values). *)
Theorem Vertex_hash_separates_material {F : Type}
    (hash_vec3 : glm.vec3 F → Z) (hash_vec2 : glm.vec2 F → Z) (hash_int : Z → Z)
    (v1 v2 : Vertex F) :
  Position v1 = Position v2 → Normal v1 = Normal v2 → TexCoord v1 = TexCoord v2 →
  (0 ≤ hash_vec3 (Normal v1) < 2 ^ 64)%Z →
  (0 ≤ hash_vec2 (TexCoord v1) < 2 ^ 64)%Z →
  (0 ≤ hash_int (MaterialIndex v1) < 2 ^ 64)%Z →
  (0 ≤ hash_int (MaterialIndex v2) < 2 ^ 64)%Z →
  hash_int (MaterialIndex v1) ≠ hash_int (MaterialIndex v2) →
  Vertex_hash hash_vec3 hash_vec2 hash_int v1 ≠ Vertex_hash hash_vec3 hash_vec2 hash_int v2.
Proof.
  intros Hp Hn Ht Hrn Hrt Hr1 Hr2 Hne. unfold Vertex_hash. rewrite <-Hp, <-Hn, <-Ht.
  apply Combine_separates; [by apply Combine_range..|].
  apply Combine_separates; [by apply Combine_range..|].
  by apply Combine_separates.
Qed.

Lemma Vertex_hash_separates_material_witness :
  Vertex_hash Binary32.hash_vec3 Binary32.hash_vec2 Binary32.hash_int
    (Binary32.square_vertex Binary32.zero Binary32.zero Binary32.zero Binary32.one 0)
  ≠ Vertex_hash Binary32.hash_vec3 Binary32.hash_vec2 Binary32.hash_int
      (Binary32.square_vertex Binary32.zero Binary32.zero Binary32.zero Binary32.one 1).
Proof.
  apply Vertex_hash_separates_material;
    try reflexivity; try (vm_compute; split; [discriminate|reflexivity]).
  vm_compute. discriminate.
Defined.

(** ** LoadModel: when it returns, throws, or reads out of range *)

Lemma bind_Raised {A B : Type} (c : outcome A) (k : A → outcome B) (e : exception) :
  c ≫= k = Raised e ↔ c = Raised e ∨ ∃ a, c = Ok a ∧ k a = Raised e.
Proof.
  destruct c as [a|e'|]; split.
  - intros Hk. right. by exists a.
  - intros [?|(a' & [= <-] & Hk)]; done.
  - intros [= ->]. by left.
  - intros [[= ->]|(? & ? & _)]; done.
  - intros Hk. discriminate Hk.
  - intros [?|(? & ? & _)]; done.
Qed.

Lemma subscript_not_Raised {A : Type} (v : list A) (i : nat) (e : exception) :
  subscript v i ≠ Raised e.
Proof. unfold subscript. by destruct (v !! i). Qed.

Lemma subscript_int_not_Raised {A : Type} (v : list A) (i : Z) (e : exception) :
  subscript_int v i ≠ Raised e.
Proof. unfold subscript_int. case_decide; [apply subscript_not_Raised|done]. Qed.

Lemma subscript_int_defined {A : Type} (v : list A) (i : Z) :
  (0 ≤ i ≤ INT_MAX)%Z → (i < Z.of_nat (length v))%Z → ∃ a, subscript_int v i = Ok a.
Proof.
  intros Hi Hlen. destruct (lookup_lt_is_Some_2 v (Z.to_nat i)) as [a Ha]; [lia|].
  exists a. by apply subscript_int_Ok.
Qed.

Lemma strided_reads_Ok {A : Type} (stride : Z) (v : list A) (i j : Z) (a : A) :
  (0 ≤ j < stride)%Z →
  subscript_int v (stride * i + 0) = Ok a →
  (∃ b, subscript_int v (stride * i + (stride - 1)) = Ok b) →
  strided_reads_in_range stride v i.
Proof.
  intros Hj H0 [b Hlast].
  apply subscript_int_Ok in H0 as [H0 _].
  apply subscript_int_Ok in Hlast as [Hlast Hb]. apply lookup_lt_Some in Hb.
  unfold strided_reads_in_range. repeat split; [nia|lia|lia].
Qed.

Section LoadModelFurther.
Context {F : Type} `{Countable F} {R : Type}.
Variables (zero one seven_tenths : F) (fsub : F → F → F) (zeroR : R).
Variables (LoadObj : string → string → tinyobj.parsed F)
  (parent_path : string → string).
Implicit Types (v : Vertex F) (vs : list (Vertex F)) (m : Model F R).
Implicit Types (objAttrib : tinyobj.attrib_t F) (mesh : tinyobj.mesh_t).
Implicit Types (index : tinyobj.index_t).

Local Abbreviation parse filename := (LoadObj filename (parent_path filename)).

(** The fields of an assembled corner, with the reads they come from. *)
Lemma LoadModel_vertex_Ok objAttrib mesh n index v :
  LoadModel_vertex zero one fsub objAttrib mesh n index = Ok v →
  ∃ px py pz nx ny nz,
    subscript_int (tinyobj.vertices objAttrib) (3 * tinyobj.vertex_index index + 0) = Ok px
    ∧ subscript_int (tinyobj.vertices objAttrib) (3 * tinyobj.vertex_index index + 1) = Ok py
    ∧ subscript_int (tinyobj.vertices objAttrib) (3 * tinyobj.vertex_index index + 2) = Ok pz
    ∧ subscript_int (tinyobj.normals objAttrib) (3 * tinyobj.normal_index index + 0) = Ok nx
    ∧ subscript_int (tinyobj.normals objAttrib) (3 * tinyobj.normal_index index + 1) = Ok ny
    ∧ subscript_int (tinyobj.normals objAttrib) (3 * tinyobj.normal_index index + 2) = Ok nz
    ∧ Position v = glm.Vec3 px py pz
    ∧ Normal v = glm.Vec3 nx ny nz.
Proof.
  unfold LoadModel_vertex. intros Hv.
  apply bind_Ok in Hv as (px & Hpx & Hv). apply bind_Ok in Hv as (py & Hpy & Hv).
  apply bind_Ok in Hv as (pz & Hpz & Hv). apply bind_Ok in Hv as (nx & Hnx & Hv).
  apply bind_Ok in Hv as (ny & Hny & Hv). apply bind_Ok in Hv as (nz & Hnz & Hv).
  apply bind_Ok in Hv as (texCoord & _ & Hv).
  apply bind_Ok in Hv as (materialId & _ & [= <-]).
  by exists px, py, pz, nx, ny, nz.
Qed.

Lemma LoadModel_vertex_in_range objAttrib mesh n index v :
  LoadModel_vertex zero one fsub objAttrib mesh n index = Ok v →
  corner_in_range objAttrib mesh n index.
Proof.
  intros Hv.
  destruct (LoadModel_vertex_Ok _ _ _ _ _ Hv)
    as (px & py & pz & nx & ny & nz & Hpx & _ & Hpz & Hnx & _ & Hnz & _ & _).
  destruct (LoadModel_vertex_MaterialIndex _ _ _ _ _ _ _ _ Hv) as (materialId & Hid & _).
  pose proof (LoadModel_vertex_TexCoord _ _ _ _ _ _ _ _ Hv) as Htc.
  unfold corner_in_range. split; [|split; [|split]].
  - eapply (strided_reads_Ok 3 _ _ 0); [lia|done|by eexists].
  - eapply (strided_reads_Ok 3 _ _ 0); [lia|done|by eexists].
  - intros Hne. destruct (tinyobj.texcoords objAttrib) as [|t0 ts] eqn:Htexcoords; [done|].
    clear Htc. unfold LoadModel_vertex in Hv. rewrite Htexcoords in Hv.
    do 6 (apply bind_Ok in Hv as (? & _ & Hv)).
    apply bind_Ok in Hv as (texCoord & Htc & _).
    apply bind_Ok in Htc as (s & Hs & Htc). apply bind_Ok in Htc as (t & Ht & _).
    eapply (strided_reads_Ok 2 _ _ 0); [lia|done|by eexists].
  - by eapply lookup_lt_Some.
Qed.

Lemma LoadModel_vertex_defined objAttrib mesh n index :
  corner_in_range objAttrib mesh n index →
  ∃ v, LoadModel_vertex zero one fsub objAttrib mesh n index = Ok v.
Proof.
  intros ((Hv0 & Hv1 & Hv2) & (Hn0 & Hn1 & Hn2) & Htc & Hid).
  unfold LoadModel_vertex.
  destruct (subscript_int_defined (tinyobj.vertices objAttrib)
              (3 * tinyobj.vertex_index index + 0)) as [? ->]; [lia..|].
  destruct (subscript_int_defined (tinyobj.vertices objAttrib)
              (3 * tinyobj.vertex_index index + 1)) as [? ->]; [lia..|].
  destruct (subscript_int_defined (tinyobj.vertices objAttrib)
              (3 * tinyobj.vertex_index index + 2)) as [? ->]; [lia..|].
  destruct (subscript_int_defined (tinyobj.normals objAttrib)
              (3 * tinyobj.normal_index index + 0)) as [? ->]; [lia..|].
  destruct (subscript_int_defined (tinyobj.normals objAttrib)
              (3 * tinyobj.normal_index index + 1)) as [? ->]; [lia..|].
  destruct (subscript_int_defined (tinyobj.normals objAttrib)
              (3 * tinyobj.normal_index index + 2)) as [? ->]; [lia..|].
  rewrite !bind_ret.
  destruct (lookup_lt_is_Some_2 (tinyobj.material_ids mesh) (n / 3) Hid) as [materialId Hm].
  unfold subscript at 1. 
  destruct (tinyobj.texcoords objAttrib) as [|t0 ts] eqn:Htexcoords.
  - rewrite bind_ret. unfold subscript. rewrite Hm. by eexists.
  - destruct (Htc ltac:(done)) as (Ht0 & Ht1 & Ht2).
    destruct (subscript_int_defined (t0 :: ts)
                (2 * tinyobj.texcoord_index index + 0)) as [? ->]; [lia..|].
    destruct (subscript_int_defined (t0 :: ts)
                (2 * tinyobj.texcoord_index index + 1)) as [? ->]; [lia..|].
    rewrite !bind_ret. unfold subscript. rewrite Hm. by eexists.
Qed.

Lemma LoadModel_vertex_not_Raised objAttrib mesh n index e :
  LoadModel_vertex zero one fsub objAttrib mesh n index ≠ Raised e.
Proof.
  unfold LoadModel_vertex. intros Hv.
  do 6 (apply bind_Raised in Hv as [Hv|(? & _ & Hv)];
        [by apply subscript_int_not_Raised in Hv|]).
  apply bind_Raised in Hv as [Hv|(? & _ & Hv)].
  - destruct (tinyobj.texcoords objAttrib); [done|].
    do 2 (apply bind_Raised in Hv as [Hv|(? & _ & Hv)];
          [by apply subscript_int_not_Raised in Hv|]).
    done.
  - apply bind_Raised in Hv as [Hv|(? & _ & Hv)]; [|done].
    by apply subscript_not_Raised in Hv.
Qed.
End LoadModelFurther.

Section LoadModelOutcome.
Context {F : Type} `{Countable F} {R : Type}.
Variables (zero one seven_tenths : F) (fsub : F → F → F) (zeroR : R).
Variables (LoadObj : string → string → tinyobj.parsed F)
  (parent_path : string → string).
Implicit Types (v : Vertex F) (vs : list (Vertex F)) (m : Model F R).
Implicit Types (objAttrib : tinyobj.attrib_t F) (mesh : tinyobj.mesh_t).
Implicit Types (index : tinyobj.index_t) (objShapes : list tinyobj.shape_t).

Local Abbreviation parse filename := (LoadObj filename (parent_path filename)).

Lemma corner_vertices_not_Raised objAttrib cs n e :
  corner_vertices zero one fsub objAttrib cs n ≠ Raised e.
Proof.
  revert n. induction cs as [|[mesh index] cs IH]; intros n; [done|]. simpl.
  intros Hrun. apply bind_Raised in Hrun as [Hv|(v & _ & Hrun)].
  - by apply LoadModel_vertex_not_Raised in Hv.
  - apply bind_Raised in Hrun as [Hrest|(? & _ & ?)]; [|done].
    by apply IH in Hrest.
Qed.

Lemma corner_vertices_defined objAttrib cs n :
  (∀ k mesh index, cs !! k = Some (mesh, index) →
                   corner_in_range objAttrib mesh (n + k) index) →
  ∃ vs, corner_vertices zero one fsub objAttrib cs n = Ok vs.
Proof.
  revert n. induction cs as [|[mesh index] cs IH]; intros n Hrange; [by eexists|].
  simpl.
  destruct (LoadModel_vertex_defined zero one fsub objAttrib mesh n index) as [v ->].
  { specialize (Hrange 0 mesh index eq_refl). by rewrite Nat.add_0_r in Hrange. }
  destruct (IH (S n)) as [rest ->]; [|by eexists].
  intros k mesh' index' Hk. specialize (Hrange (S k) mesh' index' Hk).
  by replace (S n + k) with (n + S k) by lia.
Qed.

Lemma corner_vertices_in_range objAttrib cs n vs k mesh index :
  corner_vertices zero one fsub objAttrib cs n = Ok vs →
  cs !! k = Some (mesh, index) →
  corner_in_range objAttrib mesh (n + k) index.
Proof.
  intros Hvs Hk. destruct (corner_vertices_lookup _ _ _ _ _ _ _ Hvs) as [_ Hcs].
  destruct (Hcs _ _ _ Hk) as (v & _ & Hv). by eapply LoadModel_vertex_in_range.
Qed.

(** [LoadModel] in one piece: the load failure, or the corners assembled
    in order and welded. *)
Lemma LoadModel_unfold filename :
  LoadModel zero one seven_tenths fsub zeroR LoadObj parent_path filename =
  if tinyobj.ret (parse filename) then
    vs ← corner_vertices zero one fsub (tinyobj.objAttrib (parse filename))
           (corners (tinyobj.objShapes (parse filename))) 0;
    mret (mkModel (vertices (weld_all vs (Geometry_init F)))
            (indices (weld_all vs (Geometry_init F)))
            (LoadModel_materials one seven_tenths zeroR
               (tinyobj.objMaterials (parse filename)))
            None)
  else
    Raised (runtime_error
              ("failed to load model '" ++ filename ++ "':" ++ newline
               ++ tinyobj.err (parse filename))%string).
Proof.
  unfold LoadModel.
  destruct (tinyobj.ret (parse filename)); simpl; [|done].
  unfold LoadModel_geometry.
  rewrite LoadModel_shapes_corners, LoadModel_corners_run. simpl.
  by destruct (corner_vertices _ _ _ _ _ _).
Qed.

(** One corner whose reads leave their vectors is enough: the call is
    undefined, whatever the other corners are. *)
Lemma LoadModel_out_of_range filename k mesh index :
  tinyobj.ret (parse filename) = true →
  corners (tinyobj.objShapes (parse filename)) !! k = Some (mesh, index) →
  ¬ corner_in_range (tinyobj.objAttrib (parse filename)) mesh k index →
  LoadModel zero one seven_tenths fsub zeroR LoadObj parent_path filename = Undefined.
Proof.
  intros Hret Hk Hout. rewrite LoadModel_unfold, Hret.
  destruct (corner_vertices _ _ _ _ _ _) as [vs|e|] eqn:Hvs; [| |done].
  - destruct Hout. by apply (corner_vertices_in_range _ _ _ _ _ _ _ Hvs Hk).
  - by apply corner_vertices_not_Raised in Hvs.
Qed.

(** X1: [LoadModel] returns a model exactly when the parse succeeded and,
    for every corner, the three position reads, the three normal reads,
    the two texture-coordinate reads (when there are texture coordinates)
    and the material-id read at [faceId / 3] all fall inside their
    vectors. *)
Theorem LoadModel_returns_iff filename :
  (∃ m, LoadModel zero one seven_tenths fsub zeroR LoadObj parent_path filename = Ok m)
  ↔ tinyobj.ret (parse filename) = true
    ∧ ∀ k mesh index,
        corners (tinyobj.objShapes (parse filename)) !! k = Some (mesh, index) →
        corner_in_range (tinyobj.objAttrib (parse filename)) mesh k index.
Proof.
  rewrite LoadModel_unfold. split.
  - intros [m Hm]. destruct (tinyobj.ret (parse filename)); [|done]. split; [done|].
    apply bind_Ok in Hm as (vs & Hvs & _). intros k mesh index Hk.
    by apply (corner_vertices_in_range _ _ _ _ _ _ _ Hvs Hk).
  - intros [-> Hrange].
    destruct (corner_vertices_defined (tinyobj.objAttrib (parse filename))
                (corners (tinyobj.objShapes (parse filename))) 0) as [vs ->];
      [done|by eexists].
Qed.

(** X2: the only exception [LoadModel] throws is the load failure: it is
    thrown exactly when the parser reports failure, and its message holds
    the file name and the parser's error text. *)
Theorem LoadModel_throws_iff filename e :
  LoadModel zero one seven_tenths fsub zeroR LoadObj parent_path filename = Raised e
  ↔ tinyobj.ret (parse filename) = false
    ∧ e = runtime_error
            ("failed to load model '" ++ filename ++ "':" ++ newline
             ++ tinyobj.err (parse filename))%string.
Proof.
  rewrite LoadModel_unfold. destruct (tinyobj.ret (parse filename)); split.
  - intros Hrun. apply bind_Raised in Hrun as [Hvs|(? & _ & ?)]; [|done].
    by apply corner_vertices_not_Raised in Hvs.
  - by intros [? _].
  - by intros [= <-].
  - by intros [_ ->].
Qed.

(** X3: a corner that refers to no position or to no normal (a negative
    index, the parser's mark for an absent attribute), or to no texture
    coordinate while the parse has some, makes the call undefined: the
    subscript is computed from the index as it is. *)
Theorem LoadModel_negative_index filename k mesh index :
  tinyobj.ret (parse filename) = true →
  corners (tinyobj.objShapes (parse filename)) !! k = Some (mesh, index) →
  (tinyobj.vertex_index index < 0)%Z
  ∨ (tinyobj.normal_index index < 0)%Z
  ∨ (tinyobj.texcoords (tinyobj.objAttrib (parse filename)) ≠ []
     ∧ (tinyobj.texcoord_index index < 0)%Z) →
  LoadModel zero one seven_tenths fsub zeroR LoadObj parent_path filename = Undefined.
Proof.
  intros Hret Hk Hneg. apply (LoadModel_out_of_range _ _ _ _ Hret Hk).
  intros ((Hv & _) & (Hn & _) & Htc & _).
  destruct Hneg as [?|[?|[Hsome ?]]]; [lia|lia|].
  destruct (Htc Hsome) as (? & _). lia.
Qed.
End LoadModelOutcome.

Lemma LoadModel_negative_index_witness :
  LoadModel Binary32.zero Binary32.one Binary32.seven_tenths Binary32.sub tt
    (Binary32.LoadObj_const Binary32.bare_obj) Binary32.parent_path "bare.obj"
  = Undefined.
Proof.
  apply (LoadModel_negative_index Binary32.zero Binary32.one Binary32.seven_tenths
           Binary32.sub tt (Binary32.LoadObj_const Binary32.bare_obj)
           Binary32.parent_path "bare.obj" 0
           (tinyobj.Mesh
              [tinyobj.Index 0 (-1) 0; tinyobj.Index 1 (-1) 1; tinyobj.Index 2 (-1) 2]
              [0%Z])
           (tinyobj.Index 0 (-1) 0)).
  - reflexivity.
  - reflexivity.
  - right. left. simpl. lia.
Defined.

(** ** LoadModel: the counter across shapes *)

Lemma corners_cons (shape : tinyobj.shape_t) (objShapes : list tinyobj.shape_t) :
  corners (shape :: objShapes) =
  map (fun index => (tinyobj.mesh shape, index)) (tinyobj.indices (tinyobj.mesh shape))
  ++ corners objShapes.
Proof. done. Qed.

Lemma corners_app (shapes1 shapes2 : list tinyobj.shape_t) :
  corners (shapes1 ++ shapes2) = corners shapes1 ++ corners shapes2.
Proof.
  induction shapes1 as [|shape shapes1 IH]; [done|].
  change ((shape :: shapes1) ++ shapes2) with (shape :: (shapes1 ++ shapes2)).
  by rewrite !corners_cons, IH, app_assoc.
Qed.

Lemma one_id_per_face_corners (objShapes : list tinyobj.shape_t) :
  one_id_per_face objShapes → ∃ faces, length (corners objShapes) = 3 * faces.
Proof.
  induction 1 as [|shape objShapes Hshape _ [faces IH]]; [by exists 0|].
  exists (length (tinyobj.material_ids (tinyobj.mesh shape)) + faces).
  rewrite corners_cons, length_app, length_map. lia.
Qed.

Section LoadModelShapes.
Context {F : Type} `{Countable F} {R : Type}.
Variables (zero one seven_tenths : F) (fsub : F → F → F) (zeroR : R).
Variables (LoadObj : string → string → tinyobj.parsed F)
  (parent_path : string → string).

Local Abbreviation parse filename := (LoadObj filename (parent_path filename)).

(** X4: the face counter is never reset, while each mesh has its own
    material ids.  When the parser gives every mesh one material id per
    face, a shape with faces that comes after corners of an earlier shape
    has its last corner read past its material ids: with two shapes that
    both have faces, the call is undefined. *)
Theorem LoadModel_later_shape_out_of_range filename before shape after :
  tinyobj.ret (parse filename) = true →
  one_id_per_face (tinyobj.objShapes (parse filename)) →
  tinyobj.objShapes (parse filename) = before ++ shape :: after →
  corners before ≠ [] →
  tinyobj.indices (tinyobj.mesh shape) ≠ [] →
  LoadModel zero one seven_tenths fsub zeroR LoadObj parent_path filename = Undefined.
Proof.
  intros Hret Hids Hsplit Hbefore Hshape.
  rewrite Hsplit in Hids. apply Forall_app in Hids as [Hids_before Hids].
  apply Forall_cons in Hids as [Hids_shape _].
  destruct (one_id_per_face_corners _ Hids_before) as [faces Hfaces].
  assert (0 < faces) as Hpos.
  { destruct (corners before); [done|]. simpl in Hfaces. lia. }
  set (n := length (tinyobj.indices (tinyobj.mesh shape))) in *.
  assert (0 < n) as Hn.
  { subst n. destruct (tinyobj.indices (tinyobj.mesh shape)); [done|]. simpl. lia. }
  destruct (lookup_lt_is_Some_2 (tinyobj.indices (tinyobj.mesh shape)) (n - 1))
    as [index Hindex]; [lia|].
  apply (LoadModel_out_of_range zero one seven_tenths fsub zeroR LoadObj parent_path
           filename (length (corners before) + (n - 1)) (tinyobj.mesh shape) index Hret).
  - rewrite Hsplit, corners_app, corners_cons.
    rewrite lookup_app_r by lia.
    replace (length (corners before) + (n - 1) - length (corners before))
      with (n - 1) by lia.
    rewrite lookup_app_l by (rewrite length_map; lia).
    by rewrite list_lookup_fmap, Hindex.
  - intros (_ & _ & _ & Hid). rewrite Hfaces in Hid.
    replace (3 * faces + (n - 1)) with ((n - 1) + faces * 3) in Hid by lia.
    rewrite Nat.div_add in Hid by lia.
    assert ((n - 1) / 3 = length (tinyobj.material_ids (tinyobj.mesh shape)) - 1)
      as Hlast.
    { rewrite Hids_shape.
      replace (3 * length (tinyobj.material_ids (tinyobj.mesh shape)) - 1)
        with (2 + (length (tinyobj.material_ids (tinyobj.mesh shape)) - 1) * 3) by lia.
      rewrite Nat.div_add by lia. done. }
    lia.
Qed.
End LoadModelShapes.

Lemma LoadModel_later_shape_out_of_range_witness :
  Binary32.LoadModel "pair.obj" = Undefined.
Proof.
  apply (LoadModel_later_shape_out_of_range Binary32.zero Binary32.one
           Binary32.seven_tenths Binary32.sub tt Binary32.LoadObj Binary32.parent_path
           "pair.obj"
           [tinyobj.Shape
              (tinyobj.Mesh [Binary32.corner 0; Binary32.corner 1; Binary32.corner 2]
                 [0%Z])]
           (tinyobj.Shape
              (tinyobj.Mesh [Binary32.corner 0; Binary32.corner 2; Binary32.corner 3]
                 [1%Z]))
           []).
  - reflexivity.
  - repeat constructor.
  - reflexivity.
  - discriminate.
  - discriminate.
Defined.

(** ** LoadModel: the welded buffers *)

Section FirstOccurrencesMore.
Context {F : Type} `{Countable F}.
Implicit Types (v : Vertex F) (vs : list (Vertex F)).

Lemma length_first_occurrences vs : length (first_occurrences vs) ≤ length vs.
Proof.
  induction vs as [|v vs IH] using rev_ind; [done|].
  rewrite first_occurrences_snoc, length_app. simpl.
  case_decide; [lia|]. rewrite length_app. simpl. lia.
Qed.

Lemma first_occurrences_NoDup vs : NoDup vs → first_occurrences vs = vs.
Proof.
  induction vs as [|v vs IH] using rev_ind; [done|].
  intros Hnodup. apply NoDup_app in Hnodup as (Hvs & Hnotin & _).
  rewrite first_occurrences_snoc, IH by done.
  case_decide as Hin; [|done].
  destruct (Hnotin _ Hin). apply list_elem_of_here.
Qed.

End FirstOccurrencesMore.

Section LoadModelBuffers.
Context {F : Type} `{Countable F} {R : Type}.
Variables (zero one seven_tenths : F) (fsub : F → F → F) (zeroR : R).
Variables (LoadObj : string → string → tinyobj.parsed F)
  (parent_path : string → string).
Implicit Types (v : Vertex F) (vs : list (Vertex F)) (m : Model F R).
Implicit Types (mesh : tinyobj.mesh_t) (index : tinyobj.index_t).

Local Abbreviation parse filename := (LoadObj filename (parent_path filename)).

Lemma LoadModel_geometry_Ok (objAttrib : tinyobj.attrib_t F) objShapes g :
  LoadModel_geometry zero one fsub objAttrib objShapes = Ok g →
  ∃ vs, corner_vertices zero one fsub objAttrib (corners objShapes) 0 = Ok vs
        ∧ g = weld_all vs (Geometry_init F).
Proof.
  unfold LoadModel_geometry.
  rewrite LoadModel_shapes_corners, LoadModel_corners_run. simpl.
  intros Hg. apply bind_Ok in Hg as (vs & Hvs & [= <-]). by exists vs.
Qed.

(** X5: the indexed mesh expands back to the corners it was built from:
    reading the vertex buffer through the index buffer gives the attribute
    tuples of the corners, in order (the vertex count fitting the index
    type). *)
Theorem LoadModel_expands filename m :
  LoadModel zero one seven_tenths fsub zeroR LoadObj parent_path filename = Ok m →
  fits_uint32 (vertices_ m) →
  ∃ vs,
    corner_vertices zero one fsub (tinyobj.objAttrib (parse filename))
      (corners (tinyobj.objShapes (parse filename))) 0 = Ok vs
    ∧ map (fun i => vertices_ m !! N.to_nat i) (indices_ m) = map Some vs.
Proof.
  intros Hload Hfits. apply LoadModel_Ok in Hload as (_ & vs & Hvs & ->).
  exists vs. split; [done|]. simpl in *.
  pose proof (weld_all_inv vs) as Hinv.
  apply list_eq. intros k. rewrite !list_lookup_fmap.
  destruct (vs !! k) as [v|] eqn:Hk; simpl.
  - destruct (pool_indices _ _ Hinv _ _ Hk) as (pos & Hpos & ->). simpl.
    rewrite to_uint32_small, Nat2N.id; [by rewrite Hpos|].
    apply lookup_lt_Some in Hpos. unfold fits_uint32 in Hfits. lia.
  - rewrite (lookup_ge_None_2 (indices _)); [done|].
    rewrite (pool_indices_length _ _ Hinv). by apply lookup_ge_None.
Qed.

(** X6: no stored vertex is left unreferenced: for every slot of the
    vertex buffer some corner's index is that slot (cast to [uint32_t]). *)
Theorem LoadModel_no_orphan filename m pos v :
  LoadModel zero one seven_tenths fsub zeroR LoadObj parent_path filename = Ok m →
  vertices_ m !! pos = Some v →
  ∃ k, indices_ m !! k = Some (to_uint32 pos).
Proof.
  intros Hload Hpos. apply LoadModel_Ok in Hload as (_ & vs & Hvs & ->). simpl in *.
  pose proof (weld_all_inv vs) as Hinv.
  pose proof (pool_vertices _ _ Hinv) as Hfinal. fold (first_occurrences vs) in Hfinal.
  assert (v ∈ vs) as Hin.
  { apply elem_of_first_occurrences. rewrite <-Hfinal. by eapply list_elem_of_lookup_2. }
  apply list_elem_of_lookup_1 in Hin as [k Hk]. exists k.
  destruct (pool_indices _ _ Hinv _ _ Hk) as (pos' & Hpos' & ->).
  assert (NoDup (vertices (weld_all vs (Geometry_init F)))) as Hnodup.
  { rewrite Hfinal. apply NoDup_first_occurrences. }
  by rewrite (NoDup_lookup _ _ _ _ Hnodup Hpos Hpos').
Qed.


(** X8: when the corners' attribute tuples are pairwise different nothing
    is welded: the vertex buffer is the sequence of tuples and the index
    buffer counts 0, 1, 2, ... (cast to [uint32_t]). *)
Theorem LoadModel_distinct_corners filename m vs :
  LoadModel zero one seven_tenths fsub zeroR LoadObj parent_path filename = Ok m →
  corner_vertices zero one fsub (tinyobj.objAttrib (parse filename))
    (corners (tinyobj.objShapes (parse filename))) 0 = Ok vs →
  NoDup vs →
  vertices_ m = vs ∧ indices_ m = map to_uint32 (seq 0 (length vs)).
Proof.
  intros Hload Hvs Hnodup.
  apply LoadModel_Ok in Hload as (_ & vs' & Hvs' & ->). simpl in *.
  assert (vs' = vs) as -> by congruence.
  pose proof (weld_all_inv vs) as Hinv.
  pose proof (pool_vertices _ _ Hinv) as Hfinal. fold (first_occurrences vs) in Hfinal.
  rewrite first_occurrences_NoDup in Hfinal by done.
  split; [done|]. apply list_eq. intros k. rewrite list_lookup_fmap.
  destruct (vs !! k) as [v|] eqn:Hk.
  - destruct (pool_indices _ _ Hinv _ _ Hk) as (pos & Hpos & ->).
    rewrite Hfinal in Hpos. rewrite (NoDup_lookup _ _ _ _ Hnodup Hpos Hk).
    rewrite lookup_seq_lt by (by eapply lookup_lt_Some). done.
  - apply lookup_ge_None in Hk.
    rewrite lookup_seq_ge by done.
    apply lookup_ge_None. by rewrite (pool_indices_length _ _ Hinv).
Qed.

(** X9: when the geometry loop ends, the map holds exactly the stored
    vertices, each with its (cast) position: the lookup that emits the
    index never creates an entry, and the number of keys is the number of
    vertices. *)
Theorem LoadModel_geometry_map (objAttrib : tinyobj.attrib_t F) objShapes g :
  LoadModel_geometry zero one fsub objAttrib objShapes = Ok g →
  size (uniqueVertices g) = length (vertices g)
  ∧ (∀ v, is_Some (uniqueVertices g !! v) ↔ v ∈ vertices g)
  ∧ (∀ pos v, vertices g !! pos = Some v →
              uniqueVertices g !! v = Some (to_uint32 pos)).
Proof.
  intros Hg. apply LoadModel_geometry_Ok in Hg as (vs & _ & ->).
  pose proof (weld_all_inv vs) as Hinv.
  pose proof (pool_vertices _ _ Hinv) as Hfinal. fold (first_occurrences vs) in Hfinal.
  set (g := weld_all vs (Geometry_init F)) in *.
  assert (NoDup (vertices g)) as Hnodup.
  { rewrite Hfinal. apply NoDup_first_occurrences. }
  assert (∀ v, is_Some (uniqueVertices g !! v) ↔ v ∈ vertices g) as Hdom.
  { intros v. split; [|apply (pool_map_complete _ _ Hinv)].
    intros [i Hi]. destruct (pool_map_sound _ _ Hinv _ _ Hi) as (pos & Hpos & _).
    by eapply list_elem_of_lookup_2. }
  split; [|split; [done|]].
  - rewrite <-size_dom, <-(size_list_to_set (C:=gset (Vertex F)) (vertices g)) by done.
    f_equal. apply set_eq. intros v.
    by rewrite elem_of_dom, elem_of_list_to_set.
  - intros pos v Hpos.
    destruct (pool_map_complete _ _ Hinv v) as [i Hi];
      [by eapply list_elem_of_lookup_2|].
    destruct (pool_map_sound _ _ Hinv _ _ Hi) as (pos' & Hpos' & ->).
    by rewrite Hi, (NoDup_lookup _ _ _ _ Hnodup Hpos Hpos').
Qed.

(** X10: the vertex stored for a corner has the corner's position and
    normal as they stand in the attribute arrays, three consecutive floats
    from [3 * vertex_index] and from [3 * normal_index]. *)
Theorem LoadModel_position_normal filename m k mesh index :
  LoadModel zero one seven_tenths fsub zeroR LoadObj parent_path filename = Ok m →
  corners (tinyobj.objShapes (parse filename)) !! k = Some (mesh, index) →
  ∃ pos vertex px py pz nx ny nz,
    vertices_ m !! pos = Some vertex
    ∧ indices_ m !! k = Some (to_uint32 pos)
    ∧ tinyobj.vertices (tinyobj.objAttrib (parse filename))
        !! Z.to_nat (3 * tinyobj.vertex_index index + 0) = Some px
    ∧ tinyobj.vertices (tinyobj.objAttrib (parse filename))
        !! Z.to_nat (3 * tinyobj.vertex_index index + 1) = Some py
    ∧ tinyobj.vertices (tinyobj.objAttrib (parse filename))
        !! Z.to_nat (3 * tinyobj.vertex_index index + 2) = Some pz
    ∧ tinyobj.normals (tinyobj.objAttrib (parse filename))
        !! Z.to_nat (3 * tinyobj.normal_index index + 0) = Some nx
    ∧ tinyobj.normals (tinyobj.objAttrib (parse filename))
        !! Z.to_nat (3 * tinyobj.normal_index index + 1) = Some ny
    ∧ tinyobj.normals (tinyobj.objAttrib (parse filename))
        !! Z.to_nat (3 * tinyobj.normal_index index + 2) = Some nz
    ∧ Position vertex = glm.Vec3 px py pz
    ∧ Normal vertex = glm.Vec3 nx ny nz.
Proof.
  intros Hload Hk.
  destruct (LoadModel_corner_stored _ _ _ _ _ _ _ _ _ _ _ _ Hload Hk)
    as (pos & vertex & Hvertex & Hi & Hasm).
  apply LoadModel_vertex_Ok in Hasm
    as (px & py & pz & nx & ny & nz & Hpx & Hpy & Hpz & Hnx & Hny & Hnz & Hp & Hn).
  apply subscript_int_Ok in Hpx as [_ Hpx]. apply subscript_int_Ok in Hpy as [_ Hpy].
  apply subscript_int_Ok in Hpz as [_ Hpz]. apply subscript_int_Ok in Hnx as [_ Hnx].
  apply subscript_int_Ok in Hny as [_ Hny]. apply subscript_int_Ok in Hnz as [_ Hnz].
  exists pos, vertex, px, py, pz, nx, ny, nz. do 9 (split; [done|]). done.
Qed.

(** X11: a model loaded from a file carries no analytic-shape descriptor,
    has one material per parsed material and at least one, never more
    vertices than indices, and empty buffers when the parse has no
    corner. *)
Theorem LoadModel_result_shape filename m :
  LoadModel zero one seven_tenths fsub zeroR LoadObj parent_path filename = Ok m →
  procedural_ m = None
  ∧ length (materials_ m) = Nat.max 1 (length (tinyobj.objMaterials (parse filename)))
  ∧ length (vertices_ m) ≤ length (indices_ m)
  ∧ (corners (tinyobj.objShapes (parse filename)) = [] →
     vertices_ m = [] ∧ indices_ m = []).
Proof.
  intros Hload. apply LoadModel_Ok in Hload as (_ & vs & Hvs & ->). simpl.
  pose proof (weld_all_inv vs) as Hinv.
  pose proof (pool_vertices _ _ Hinv) as Hfinal. fold (first_occurrences vs) in Hfinal.
  split; [done|]. split; [apply LoadModel_materials_length|]. split.
  - rewrite Hfinal, (pool_indices_length _ _ Hinv). apply length_first_occurrences.
  - intros Hnone. rewrite Hnone in Hvs. injection Hvs as <-. done.
Qed.
End LoadModelBuffers.

(** [square.obj]: the six corners read back through the index buffer. *)
Lemma LoadModel_expands_witness :
  ∃ vs,
    corner_vertices Binary32.zero Binary32.one Binary32.sub Binary32.square_attrib
      (corners (tinyobj.objShapes Binary32.square_obj)) 0 = Ok vs
    ∧ map (fun i => vertices_ Binary32.square_model !! N.to_nat i)
        (indices_ Binary32.square_model) = map Some vs.
Proof.
  apply (LoadModel_expands Binary32.zero Binary32.one Binary32.seven_tenths
           Binary32.sub tt Binary32.LoadObj Binary32.parent_path
           "square.obj" Binary32.square_model).
  - vm_compute. reflexivity.
  - unfold fits_uint32. simpl. lia.
Defined.

Lemma LoadModel_no_orphan_witness :
  ∃ k, indices_ Binary32.square_model !! k = Some (to_uint32 3).
Proof.
  apply (LoadModel_no_orphan Binary32.zero Binary32.one Binary32.seven_tenths
           Binary32.sub tt Binary32.LoadObj Binary32.parent_path
           "square.obj" Binary32.square_model 3
           (Binary32.square_vertex Binary32.zero Binary32.one Binary32.zero
              Binary32.zero 1)).
  - vm_compute. reflexivity.
  - reflexivity.
Defined.


(** [split.obj]: six corners, six different tuples. *)
Lemma LoadModel_distinct_corners_witness :
  vertices_ Binary32.split_model = vertices_ Binary32.split_model
  ∧ indices_ Binary32.split_model
    = map to_uint32 (seq 0 (length (vertices_ Binary32.split_model))).
Proof.
  apply (LoadModel_distinct_corners Binary32.zero Binary32.one Binary32.seven_tenths
           Binary32.sub tt Binary32.LoadObj Binary32.parent_path
           "split.obj" Binary32.split_model (vertices_ Binary32.split_model)).
  - vm_compute. reflexivity.
  - vm_compute. reflexivity.
  - compute_done.
Defined.

(** [square.obj]: the pool after its six corners. *)
Lemma LoadModel_geometry_map_witness :
  ∃ g,
    LoadModel_geometry Binary32.zero Binary32.one Binary32.sub Binary32.square_attrib
      (tinyobj.objShapes Binary32.square_obj) = Ok g
    ∧ size (uniqueVertices g) = length (vertices g).
Proof.
  assert (LoadModel_geometry Binary32.zero Binary32.one Binary32.sub
            Binary32.square_attrib (tinyobj.objShapes Binary32.square_obj)
          = Ok (weld_all
                  [Binary32.square_vertex Binary32.zero Binary32.zero Binary32.zero
                     Binary32.one 1;
                   Binary32.square_vertex Binary32.one Binary32.zero Binary32.one
                     Binary32.three_quarters 1;
                   Binary32.square_vertex Binary32.one Binary32.one Binary32.one
                     Binary32.zero 1;
                   Binary32.square_vertex Binary32.zero Binary32.zero Binary32.zero
                     Binary32.one 1;
                   Binary32.square_vertex Binary32.one Binary32.one Binary32.one
                     Binary32.zero 1;
                   Binary32.square_vertex Binary32.zero Binary32.one Binary32.zero
                     Binary32.zero 1]
                  (Geometry_init spec_float))) as Hg.
  { unfold LoadModel_geometry.
    rewrite LoadModel_shapes_corners, LoadModel_corners_run.
    change (faceId (Geometry_init spec_float)) with 0.
    match goal with
    | |- ?c ≫= _ = Ok (weld_all ?vs _) =>
        assert (c = Ok vs) as -> by (vm_compute; reflexivity)
    end.
    reflexivity. }
  eexists. split; [exact Hg|].
  apply (LoadModel_geometry_map Binary32.zero Binary32.one Binary32.sub
           Binary32.square_attrib (tinyobj.objShapes Binary32.square_obj) _ Hg).
Defined.

(** [square.obj], corner 1: position [(1, 0, 0)], normal [(0, 0, 1)]. *)
Lemma LoadModel_position_normal_witness :
  ∃ pos vertex,
    vertices_ Binary32.square_model !! pos = Some vertex
    ∧ indices_ Binary32.square_model !! 1 = Some (to_uint32 pos)
    ∧ Position vertex = glm.Vec3 Binary32.one Binary32.zero Binary32.zero
    ∧ Normal vertex = glm.Vec3 Binary32.zero Binary32.zero Binary32.one.
Proof.
  destruct (LoadModel_position_normal Binary32.zero Binary32.one Binary32.seven_tenths
              Binary32.sub tt Binary32.LoadObj Binary32.parent_path
              "square.obj" Binary32.square_model 1
              (tinyobj.Mesh
                 [Binary32.corner 0; Binary32.corner 1; Binary32.corner 2;
                  Binary32.corner 0; Binary32.corner 2; Binary32.corner 3]
                 [1%Z; 1%Z])
              (Binary32.corner 1))
    as (pos & vertex & px & py & pz & nx & ny & nz & Hvertex & Hi
        & Hpx & Hpy & Hpz & Hnx & Hny & Hnz & Hp & Hn).
  - vm_compute. reflexivity.
  - reflexivity.
  - exists pos, vertex. split; [exact Hvertex|]. split; [exact Hi|].
    injection Hpx as <-. injection Hpy as <-. injection Hpz as <-.
    injection Hnx as <-. injection Hny as <-. injection Hnz as <-.
    split; [exact Hp|exact Hn].
Defined.

Lemma LoadModel_result_shape_witness :
  procedural_ Binary32.plain_model = None
  ∧ length (materials_ Binary32.plain_model) = 1
  ∧ length (vertices_ Binary32.plain_model) ≤ length (indices_ Binary32.plain_model).
Proof.
  destruct (LoadModel_result_shape Binary32.zero Binary32.one Binary32.seven_tenths
              Binary32.sub tt Binary32.LoadObj Binary32.parent_path
              "plain.obj" Binary32.plain_model)
    as (Hnone & Hmat & Hle & _).
  - vm_compute. reflexivity.
  - split; [exact Hnone|]. split; [exact Hmat|exact Hle].
Defined.

(** ** CreateSphere, SetMaterial and Transform together *)

Section CreateSphereFurther.
Context {F R : Type}.
Variables (fadd : F → F → F) (Icosphere_new : F → Z → bool → Icosphere F).
Implicit Types (center : glm.vec3 F) (icosphere : Icosphere F).
Implicit Types (vertex : Vertex F) (m : Model F R) (material : Material F R).

Lemma CreateSphere_vertex_not_Raised center icosphere i e :
  CreateSphere_vertex fadd center icosphere i ≠ Raised e.
Proof.
  unfold CreateSphere_vertex. intros Hv.
  do 8 (apply bind_Raised in Hv as [Hv|(? & _ & Hv)];
        [by apply subscript_not_Raised in Hv|]).
  done.
Qed.

Lemma CreateSphere_loop_not_Raised center icosphere remaining i acc e :
  CreateSphere_loop fadd center icosphere remaining i acc ≠ Raised e.
Proof.
  revert i acc. induction remaining as [|remaining IH]; intros i acc; [done|].
  simpl. intros Hrun. apply bind_Raised in Hrun as [Hv|(v & _ & Hrun)].
  - by apply CreateSphere_vertex_not_Raised in Hv.
  - by apply IH in Hrun.
Qed.

Lemma CreateSphere_Ok center radius subdivision material isProcedural m :
  CreateSphere fadd Icosphere_new center radius subdivision material isProcedural = Ok m →
  ∃ vertices,
    CreateSphere_loop fadd center (Icosphere_new radius subdivision true)
      (VertexCount (Icosphere_new radius subdivision true)) 0 [] = Ok vertices
    ∧ m = mkModel vertices (Indices (Icosphere_new radius subdivision true)) [material]
            (if isProcedural then Some (Sphere center radius) else None).
Proof.
  unfold CreateSphere. intros Hrun.
  apply bind_Ok in Hrun as (vertices & Hloop & [= <-]). by exists vertices.
Qed.

(** X12: [CreateSphere] returns a model exactly when the generator's
    arrays hold all the points it counts (three floats of position and of
    normal and two of texture coordinate per point); otherwise a read
    leaves its array.  It never throws. *)
Theorem CreateSphere_returns_iff center radius subdivision material isProcedural :
  ((∃ m, CreateSphere fadd Icosphere_new center radius subdivision material
           isProcedural = Ok m)
   ↔ VertexCount (Icosphere_new radius subdivision true) * 3
       ≤ length (Vertices (Icosphere_new radius subdivision true))
     ∧ VertexCount (Icosphere_new radius subdivision true) * 3
       ≤ length (Normals (Icosphere_new radius subdivision true))
     ∧ VertexCount (Icosphere_new radius subdivision true) * 2
       ≤ length (TexCoords (Icosphere_new radius subdivision true)))
  ∧ ∀ e, CreateSphere fadd Icosphere_new center radius subdivision material
           isProcedural ≠ Raised e.
Proof.
  split; [split|].
  - intros [m Hm]. apply CreateSphere_Ok in Hm as (vertices & Hloop & _).
    apply CreateSphere_loop_Ok in Hloop as (tail & _ & _ & Hslots).
    destruct (VertexCount (Icosphere_new radius subdivision true)) as [|n]; [lia|].
    destruct (Hslots n ltac:(lia)) as (vertex & _ & Hasm).
    apply CreateSphere_vertex_Ok in Hasm
      as (? & ? & ? & ? & ? & ? & ? & ? & _ & _ & Hpz & _ & _ & Hnz & _ & Ht & _).
    apply lookup_lt_Some in Hpz, Hnz, Ht. simpl in *. lia.
  - intros (Hv & Hn & Ht). by apply CreateSphere_defined.
  - intros e Hrun. unfold CreateSphere in Hrun.
    apply bind_Raised in Hrun as [Hloop|(? & _ & ?)]; [|done].
    by apply CreateSphere_loop_not_Raised in Hloop.
Qed.

(** X13: the normal stored for generated point [i] is the generator's
    normal for that point, unchanged: the center is added to positions
    only. *)
Theorem CreateSphere_normal_verbatim center radius subdivision material
    isProcedural m i :
  CreateSphere fadd Icosphere_new center radius subdivision material isProcedural = Ok m →
  i < VertexCount (Icosphere_new radius subdivision true) →
  ∃ vertex nx ny nz,
    vertices_ m !! i = Some vertex
    ∧ Normals (Icosphere_new radius subdivision true) !! (i * 3 + 0) = Some nx
    ∧ Normals (Icosphere_new radius subdivision true) !! (i * 3 + 1) = Some ny
    ∧ Normals (Icosphere_new radius subdivision true) !! (i * 3 + 2) = Some nz
    ∧ Normal vertex = glm.Vec3 nx ny nz.
Proof.
  intros Hrun Hi. apply CreateSphere_Ok in Hrun as (vertices & Hloop & ->). simpl.
  apply CreateSphere_loop_Ok in Hloop as (tail & -> & _ & Hslots). simpl.
  destruct (Hslots i Hi) as (vertex & Hslot & Hasm).
  apply CreateSphere_vertex_Ok in Hasm
    as (px & py & pz & nx & ny & nz & s & t & _ & _ & _ & Hnx & Hny & Hnz & _ & _ & ->).
  by exists (mkVertex (vec3_add fadd (glm.Vec3 px py pz) center)
            (glm.Vec3 nx ny nz) (glm.Vec2 s t) 0), nx, ny, nz.
Qed.

(** X14: a model returned by [CreateSphere] satisfies the invariants of a
    model as soon as the generator's triangulation does: indices below the
    point count, three per triangle. *)
Theorem CreateSphere_valid center radius subdivision material isProcedural m :
  CreateSphere fadd Icosphere_new center radius subdivision material isProcedural = Ok m →
  Forall (fun i => (i < N.of_nat (VertexCount (Icosphere_new radius subdivision true)))%N)
    (Indices (Icosphere_new radius subdivision true)) →
  length (Indices (Icosphere_new radius subdivision true)) mod 3 = 0 →
  Model_valid m.
Proof.
  intros Hrun Hidx Htri. apply CreateSphere_Ok in Hrun as (vertices & Hloop & ->).
  apply CreateSphere_loop_Ok in Hloop as (tail & -> & Hlen & Hslots). simpl in *.
  split; simpl.
  - by rewrite Hlen.
  - done.
  - done.
  - apply Forall_lookup. intros i vertex Hvertex.
    destruct (Hslots i) as (vertex' & Hslot & Hasm).
    { rewrite <-Hlen. by eapply lookup_lt_Some. }
    assert (vertex' = vertex) as -> by congruence.
    apply CreateSphere_vertex_Ok in Hasm
      as (? & ? & ? & ? & ? & ? & ? & ? & _ & _ & _ & _ & _ & _ & _ & _ & ->).
    simpl. lia.
Qed.

(** X17: replacing the material of a sphere always succeeds, and gives the
    model [CreateSphere] returns for the new material. *)
Theorem CreateSphere_SetMaterial center radius subdivision material material'
    isProcedural m :
  CreateSphere fadd Icosphere_new center radius subdivision material isProcedural = Ok m →
  ∃ m',
    SetMaterial material' m = (Ok tt, m')
    ∧ CreateSphere fadd Icosphere_new center radius subdivision material' isProcedural
      = Ok m'.
Proof.
  intros Hrun. apply CreateSphere_Ok in Hrun as (vertices & Hloop & ->).
  eexists. split; [done|]. unfold CreateSphere. by rewrite Hloop.
Qed.
End CreateSphereFurther.

Section ModelOperations.
Context {F R mat4 : Type}.
Variables (zero one : F) (mat4_mul_vec4 : mat4 → glm.vec4 F → glm.vec4 F)
  (inverseTranspose : mat4 → mat4).
Implicit Types (transform : mat4) (this : Model F R) (material : Material F R).

(** X15: [SetMaterial] succeeds exactly on a model with one material; on
    any other model, the empty materials table included, it throws and
    leaves the model as it was.  In no case does it change the vertices,
    the indices, the descriptor or the number of materials. *)
Theorem SetMaterial_succeeds_iff material this :
  (fst (SetMaterial material this) = Ok tt ↔ length (materials_ this) = 1)
  ∧ (length (materials_ this) ≠ 1 →
     SetMaterial material this =
       (Raised (runtime_error "cannot change material on a multi-material model"%string),
        this))
  ∧ vertices_ (snd (SetMaterial material this)) = vertices_ this
  ∧ indices_ (snd (SetMaterial material this)) = indices_ this
  ∧ procedural_ (snd (SetMaterial material this)) = procedural_ this
  ∧ length (materials_ (snd (SetMaterial material this))) = length (materials_ this).
Proof.
  unfold SetMaterial. case_decide as Hlen; simpl.
  - by repeat split.
  - rewrite length_insert. by repeat split.
Qed.

(** X16: of two successive replacements the last one stands. *)
Theorem SetMaterial_last_wins material material' this :
  length (materials_ this) = 1 →
  SetMaterial material' (snd (SetMaterial material this)) = SetMaterial material' this.
Proof.
  intros Hlen. unfold SetMaterial at 2 3. case_decide; [lia|]. simpl.
  unfold SetMaterial. simpl. rewrite length_insert. case_decide; [lia|].
  by rewrite list_insert_insert_eq.
Qed.

(** X19: [Transform] keeps the invariants of a model. *)
Theorem Transform_valid transform this :
  Model_valid this →
  Model_valid (Transform zero one mat4_mul_vec4 inverseTranspose transform this).
Proof.
  intros [Hidx Htri Hmat Hmi].
  split; rewrite ?Transform_vertices; simpl; try done.
  - by rewrite length_map.
  - apply Forall_fmap. by eapply Forall_impl.
Qed.

(** X20: [SetMaterial] keeps the invariants of a model, whether it
    succeeds or throws. *)
Theorem SetMaterial_valid material this :
  Model_valid this → Model_valid (snd (SetMaterial material this)).
Proof.
  intros [Hidx Htri Hmat Hmi]. unfold SetMaterial. case_decide as Hlen; simpl.
  - by split.
  - split; simpl; try done.
    + intros Hnil. apply (f_equal length) in Hnil.
      rewrite length_insert in Hnil. simpl in Hnil. lia.
    + by rewrite length_insert.
Qed.

(** X21: [Transform] and [SetMaterial] commute: the outcome of the
    replacement is the same and the resulting model is the same, in either
    order. *)
Theorem Transform_SetMaterial_commute transform material this :
  SetMaterial material
    (Transform zero one mat4_mul_vec4 inverseTranspose transform this)
  = (fst (SetMaterial material this),
     Transform zero one mat4_mul_vec4 inverseTranspose transform
       (snd (SetMaterial material this))).
Proof.
  unfold SetMaterial. simpl. by case_decide.
Qed.
End ModelOperations.

Section LoadModelSetMaterial.
Context {F : Type} `{Countable F} {R : Type}.
Variables (zero one seven_tenths : F) (fsub : F → F → F) (zeroR : R).
Variables (LoadObj : string → string → tinyobj.parsed F)
  (parent_path : string → string).

(** X18: the material of a model loaded from a file can be replaced
    exactly when the parse has at most one material (none: the gray
    fallback is replaced). *)
Theorem LoadModel_SetMaterial filename (m : Model F R) (material : Material F R) :
  LoadModel zero one seven_tenths fsub zeroR LoadObj parent_path filename = Ok m →
  fst (SetMaterial material m) = Ok tt
  ↔ length (tinyobj.objMaterials (LoadObj filename (parent_path filename))) ≤ 1.
Proof.
  intros Hload. apply LoadModel_Ok in Hload as (_ & vs & _ & ->).
  unfold SetMaterial. simpl. rewrite LoadModel_materials_length.
  case_decide; simpl; split; try done; lia.
Qed.
End LoadModelSetMaterial.

Example square_model_valid : Model_valid Binary32.square_model.
Proof.
  split; simpl.
  - repeat (apply Forall_cons_2; [simpl; lia|]). by apply Forall_nil.
  - reflexivity.
  - discriminate.
  - repeat (apply Forall_cons_2; [simpl; lia|]). by apply Forall_nil.
Qed.

Lemma CreateSphere_normal_verbatim_witness :
  ∃ vertex nx ny nz,
    vertices_ (Binary32.sphere_model false) !! 2 = Some vertex
    ∧ Normals (Binary32.Icosphere_new Binary32.two 0 true) !! (2 * 3 + 0) = Some nx
    ∧ Normals (Binary32.Icosphere_new Binary32.two 0 true) !! (2 * 3 + 1) = Some ny
    ∧ Normals (Binary32.Icosphere_new Binary32.two 0 true) !! (2 * 3 + 2) = Some nz
    ∧ Normal vertex = glm.Vec3 nx ny nz.
Proof.
  apply (CreateSphere_normal_verbatim Binary32.add Binary32.Icosphere_new
           Binary32.center Binary32.two 0 Binary32.gray false
           (Binary32.sphere_model false) 2).
  - vm_compute. reflexivity.
  - simpl. lia.
Defined.

Lemma CreateSphere_valid_witness : Model_valid (Binary32.sphere_model true).
Proof.
  apply (CreateSphere_valid Binary32.add Binary32.Icosphere_new
           Binary32.center Binary32.two 0 Binary32.gray true).
  - vm_compute. reflexivity.
  - simpl. repeat (apply Forall_cons_2; [simpl; lia|]). by apply Forall_nil.
  - reflexivity.
Defined.

Lemma CreateSphere_SetMaterial_witness :
  ∃ m',
    SetMaterial (mkMaterial (glm.Vec4 Binary32.one Binary32.zero Binary32.zero Binary32.one) tt)
      (Binary32.sphere_model true) = (Ok tt, m')
    ∧ Binary32.CreateSphere Binary32.center Binary32.two 0
        (mkMaterial (glm.Vec4 Binary32.one Binary32.zero Binary32.zero Binary32.one) tt)
        true = Ok m'.
Proof.
  apply (CreateSphere_SetMaterial Binary32.add Binary32.Icosphere_new
           Binary32.center Binary32.two 0 Binary32.gray).
  vm_compute. reflexivity.
Defined.

Lemma SetMaterial_last_wins_witness :
  SetMaterial Binary32.gray
    (snd (SetMaterial
            (mkMaterial (glm.Vec4 Binary32.one Binary32.zero Binary32.zero Binary32.one) tt)
            Binary32.plain_model))
  = SetMaterial Binary32.gray Binary32.plain_model.
Proof. apply SetMaterial_last_wins. reflexivity. Defined.

Lemma LoadModel_SetMaterial_witness :
  fst (SetMaterial Binary32.gray Binary32.plain_model) = Ok tt ↔ 0 ≤ 1.
Proof.
  apply (LoadModel_SetMaterial Binary32.zero Binary32.one Binary32.seven_tenths
           Binary32.sub tt Binary32.LoadObj Binary32.parent_path "plain.obj").
  vm_compute. reflexivity.
Defined.

(** The square scaled by 2. *)
Lemma Transform_valid_witness :
  Model_valid
    (Transform Binary32.zero Binary32.one Binary32.scaling_mul_vec4
       Binary32.scaling_inverseTranspose Binary32.two Binary32.square_model).
Proof. apply Transform_valid. exact square_model_valid. Defined.

Lemma SetMaterial_valid_witness :
  Model_valid (snd (SetMaterial Binary32.gray Binary32.square_model)).
Proof. apply SetMaterial_valid. exact square_model_valid. Defined.

Example Transform_scale_square :
  map Position
    (vertices_
       (Transform Binary32.zero Binary32.one Binary32.scaling_mul_vec4
          Binary32.scaling_inverseTranspose Binary32.two Binary32.square_model))
  = [glm.Vec3 Binary32.zero Binary32.zero Binary32.zero;
     glm.Vec3 Binary32.two Binary32.zero Binary32.zero;
     glm.Vec3 Binary32.two Binary32.two Binary32.zero;
     glm.Vec3 Binary32.zero Binary32.two Binary32.zero].
Proof. vm_compute. reflexivity. Qed.

(** ** The material index on a parse of two shapes *)

(** C3 (material invariant), at [pair.obj]: the parse succeeded, is
    triangulated, gives each mesh one material id per face, and every id is
    the position of one of its two materials.  The first corner of the
    second shape is corner 3 overall: with the counter at 3 the code reads
    entry [3 / 3 = 1] of that mesh's single material id, past its end,
    where a counter started afresh for the mesh would read entry 0 and
    store material index 1.  The call is undefined: no model is returned
    for which the bound on the material index could hold. *)
Theorem LoadModel_material_index_unguarded :
  tinyobj.ret Binary32.pair_obj = true
  ∧ triangulated (tinyobj.objShapes Binary32.pair_obj)
  ∧ one_id_per_face (tinyobj.objShapes Binary32.pair_obj)
  ∧ material_ids_resolved Binary32.pair_obj
  ∧ corners (tinyobj.objShapes Binary32.pair_obj) !! 3
    = Some (tinyobj.Mesh [Binary32.corner 0; Binary32.corner 2; Binary32.corner 3] [1%Z],
            Binary32.corner 0)
  ∧ subscript [1%Z] (3 / 3) = Undefined
  ∧ LoadModel_vertex Binary32.zero Binary32.one Binary32.sub Binary32.square_attrib
      (tinyobj.Mesh [Binary32.corner 0; Binary32.corner 2; Binary32.corner 3] [1%Z])
      3 (Binary32.corner 0) = Undefined
  ∧ LoadModel_vertex Binary32.zero Binary32.one Binary32.sub Binary32.square_attrib
      (tinyobj.Mesh [Binary32.corner 0; Binary32.corner 2; Binary32.corner 3] [1%Z])
      0 (Binary32.corner 0)
    = Ok (Binary32.square_vertex Binary32.zero Binary32.zero Binary32.zero Binary32.one 1)
  ∧ Binary32.LoadModel "pair.obj" = Undefined.
Proof.
  split; [reflexivity|]. split; [repeat constructor|]. split; [repeat constructor|].
  split.
  { unfold material_ids_resolved. simpl.
    repeat (apply Forall_cons_2; [repeat (apply Forall_cons_2; [lia|]); by apply Forall_nil|]).
    by apply Forall_nil. }
  split; [reflexivity|]. split; [reflexivity|].
  split; [vm_compute; reflexivity|]. split; vm_compute; reflexivity.
Qed.

(** The square moved by [(1, 1, 1)]: positions, taken with [w = 1], move;
    normals, taken with [w = 0], stay. *)
Example Transform_shift_square :
  map Position
    (vertices_
       (Transform Binary32.zero Binary32.one Binary32.shift_mul_vec4
          Binary32.shift_inverseTranspose (Binary32.Shift Binary32.center)
          Binary32.square_model))
  = [glm.Vec3 Binary32.one Binary32.one Binary32.one;
     glm.Vec3 Binary32.two Binary32.one Binary32.one;
     glm.Vec3 Binary32.two Binary32.two Binary32.one;
     glm.Vec3 Binary32.one Binary32.two Binary32.one]
  ∧ map Normal
      (vertices_
         (Transform Binary32.zero Binary32.one Binary32.shift_mul_vec4
            Binary32.shift_inverseTranspose (Binary32.Shift Binary32.center)
            Binary32.square_model))
    = map Normal (vertices_ Binary32.square_model)
  ∧ map Normal
      (vertices_
         (Transform Binary32.zero Binary32.one Binary32.shift_mul_vec4
            Binary32.shift_inverseTranspose (Binary32.ShiftIT Binary32.center)
            Binary32.square_model))
    = [glm.Vec3 Binary32.zero Binary32.zero Binary32.one;
       glm.Vec3 Binary32.zero Binary32.zero Binary32.one;
       glm.Vec3 Binary32.zero Binary32.zero Binary32.one;
       glm.Vec3 Binary32.zero Binary32.zero Binary32.one].
Proof. vm_compute. repeat split. Qed.
